(** * CwaWeather-backend: a shallow embedding of [server.js]

    [server.js] is an Express application with one interesting handler,
    [getCityWeather]: it turns a city code into the Chinese name the CWA
    open-data service expects, performs one [axios.get], and reshapes the
    provider's per-element time series into a list of forecast objects.

    The repository holds two revisions of the file: the one with all 22
    counties and cities and the earlier one with the six special
    municipalities.  They differ in [CITY_MAP], in three message texts and in
    the home route; everything below is parameterised by the revision. *)

From Stdlib Require Import ZArith String List Lia.
From Stdlib Require QArith.
From stdpp Require Import base gmap strings list.

Local Open Scope string_scope.
Local Open Scope list_scope.

(** The two revisions of [server.js]. *)
Inductive Revision := AllCounties | SixMunicipalities.

(** ** JavaScript values met by the handler *)

(** What a property read on [CITY_MAP] can yield: a string (an own
    property), a built-in function or the prototype object (inherited from
    [Object.prototype]), or [undefined]. *)
Inductive JSValue :=
| JSUndefined
| JSString (s : string)
| JSFunction (name : string)
| JSPrototypeObject.

(** [!v] is [negb (truthy v)]: only [undefined] and the empty string are
    falsy here. *)
Definition truthy (v : JSValue) : bool :=
  match v with
  | JSUndefined => false
  | JSString s => negb (s =? "")
  | JSFunction _ => true
  | JSPrototypeObject => true
  end.

(** [`${v}`] inside a template literal. *)
Definition ToString (v : JSValue) : string :=
  match v with
  | JSUndefined => "undefined"
  | JSString s => s
  | JSFunction name => "function " +:+ name +:+ "() { [native code] }"
  | JSPrototypeObject => "[object Object]"
  end.

(** The properties every object literal inherits from [Object.prototype]. *)
Definition Object_prototype (key : string) : JSValue :=
  if key =? "constructor" then JSFunction "Object"
  else if key =? "__proto__" then JSPrototypeObject
  else if bool_decide (key ∈
            ["hasOwnProperty"; "isPrototypeOf"; "propertyIsEnumerable";
             "toLocaleString"; "toString"; "valueOf";
             "__defineGetter__"; "__defineSetter__";
             "__lookupGetter__"; "__lookupSetter__"])
       then JSFunction key
  else JSUndefined.

(** [obj[key]] for an object literal whose own properties are [own]: own
    properties first, then the prototype chain. *)
Definition get_property (own : gmap string string) (key : string) : JSValue :=
  match own !! key with
  | Some s => JSString s
  | None => Object_prototype key
  end.

(** ** [CITY_MAP] *)

(** The entries of the object literal, in source order (the order
    [Object.keys] enumerates them in). *)
Definition CITY_MAP_entries (r : Revision) : list (string * string) :=
  match r with
  | AllCounties =>
      [("taipei", "臺北市"); ("new_taipei", "新北市"); ("taoyuan", "桃園市");
       ("taichung", "臺中市"); ("tainan", "臺南市"); ("kaohsiung", "高雄市");
       ("keelung", "基隆市"); ("hsinchu_city", "新竹市");
       ("hsinchu_county", "新竹縣"); ("yilan", "宜蘭縣");
       ("miaoli", "苗栗縣"); ("changhua", "彰化縣"); ("nantou", "南投縣");
       ("yunlin", "雲林縣");
       ("chiayi_city", "嘉義市"); ("chiayi_county", "嘉義縣");
       ("pingtung", "屏東縣");
       ("hualien", "花蓮縣"); ("taitung", "臺東縣");
       ("penghu", "澎湖縣"); ("kinmen", "金門縣"); ("lienchiang", "連江縣")]
  | SixMunicipalities =>
      [("taipei", "臺北市"); ("new_taipei", "新北市"); ("taoyuan", "桃園市");
       ("taichung", "臺中市"); ("tainan", "臺南市"); ("kaohsiung", "高雄市")]
  end.

Definition CITY_MAP (r : Revision) : gmap string string :=
  list_to_map (CITY_MAP_entries r).

(** ** The provider's payload *)

Module Cwa.

(** [element.time[i].parameter] *)
Record ElementParameter := { parameterName : string }.

(** [element.time[i]] *)
Record TimeEntry := {
  startTime : string;
  endTime : string;
  parameter : ElementParameter
}.

(** One entry of [locationData.weatherElement]. *)
Record WeatherElement := {
  elementName : string;
  time : list TimeEntry
}.

(** One entry of [response.data.records.location]. *)
Record Location := {
  locationName : string;
  weatherElement : list WeatherElement
}.

(** [response.data.records] *)
Record Records := {
  datasetDescription : string;
  location : list Location
}.

End Cwa.

(** ** The forecast object built per interval *)

Record Forecast := {
  startTime : string;
  endTime : string;
  weather : string;
  rain : string;
  minTemp : string;
  maxTemp : string;
  comfort : string;
  windSpeed : string
}.

Definition set_weather (v : string) (f : Forecast) : Forecast :=
  {| startTime := startTime f; endTime := endTime f; weather := v;
     rain := rain f; minTemp := minTemp f; maxTemp := maxTemp f;
     comfort := comfort f; windSpeed := windSpeed f |}.

Definition set_rain (v : string) (f : Forecast) : Forecast :=
  {| startTime := startTime f; endTime := endTime f; weather := weather f;
     rain := v; minTemp := minTemp f; maxTemp := maxTemp f;
     comfort := comfort f; windSpeed := windSpeed f |}.

Definition set_minTemp (v : string) (f : Forecast) : Forecast :=
  {| startTime := startTime f; endTime := endTime f; weather := weather f;
     rain := rain f; minTemp := v; maxTemp := maxTemp f;
     comfort := comfort f; windSpeed := windSpeed f |}.

Definition set_maxTemp (v : string) (f : Forecast) : Forecast :=
  {| startTime := startTime f; endTime := endTime f; weather := weather f;
     rain := rain f; minTemp := minTemp f; maxTemp := v;
     comfort := comfort f; windSpeed := windSpeed f |}.

Definition set_comfort (v : string) (f : Forecast) : Forecast :=
  {| startTime := startTime f; endTime := endTime f; weather := weather f;
     rain := rain f; minTemp := minTemp f; maxTemp := maxTemp f;
     comfort := v; windSpeed := windSpeed f |}.

Definition set_windSpeed (v : string) (f : Forecast) : Forecast :=
  {| startTime := startTime f; endTime := endTime f; weather := weather f;
     rain := rain f; minTemp := minTemp f; maxTemp := maxTemp f;
     comfort := comfort f; windSpeed := v |}.

(** ** JSON documents *)

(** The JSON documents [res.json] sends and the provider's error body may
    hold.  A number is given by its value; the two zeros of JavaScript are
    the one zero here, and both serialise as [0]. *)
#[local] Set Warnings "-register-all".
Inductive JSON :=
| JNull
| JBool (b : bool)
| JNum (n : QArith_base.Q)
| JStr (s : string)
| JArr (items : list JSON)
| JObj (members : list (string * JSON)).

(** The left operand of [||] decides: [null], [false], [0] and the empty
    string are falsy, every other document is truthy. *)
Definition truthyJSON (doc : JSON) : bool :=
  match doc with
  | JNull => false
  | JBool b => b
  | JNum n => negb (QArith_base.Qnum n =? 0)%Z
  | JStr s => negb (s =? "")
  | JArr _ => true
  | JObj _ => true
  end.

(** ** Exceptions *)

(** [error.response.data], as far as the handler looks at it: [null], on
    which reading [message] throws, or any other body, with the value of its
    [message] member when it has one ([undefined] otherwise, as for a body
    that is a string, a number or an array). *)
Inductive ErrorData :=
| NullBody
| BodyWith (message : option JSON).

(** [error.response] of a rejected [axios.get]: the provider's status and
    its body. *)
Record ErrorResponse := {
  upstreamStatus : Z;
  upstreamData : ErrorData
}.

Inductive JSError :=
| TypeError (msg : string)
| AxiosError (response : option ErrorResponse).

(** The completion of a statement: a value, or a thrown exception. *)
Inductive Completion (A : Type) :=
| Normal (a : A)
| Throw (e : JSError).

Arguments Normal {A} a.
Arguments Throw {A} e.

Definition bindC {A B} (c : Completion A) (k : A -> Completion B) : Completion B :=
  match c with
  | Normal a => k a
  | Throw e => Throw e
  end.

Notation "x <- c ;;; k" := (bindC c (fun x => k))
  (at level 100, c at next level, right associativity).

(** Reading a property of [undefined]. *)
Definition readOfUndefined {A} (prop : string) : Completion A :=
  Throw (TypeError ("Cannot read properties of undefined (reading '" +:+ prop +:+ "')")).

(** [arr[i].prop]: [arr[i]] is [undefined] out of range, and reading a
    property of it throws. *)
Definition index {A} (arr : list A) (i : nat) (prop : string) : Completion A :=
  match arr !! i with
  | Some x => Normal x
  | None => readOfUndefined prop
  end.

(** ** Normalisation: the body of [getCityWeather] after [weatherData] *)

(** The callback of [weatherElements.forEach], for interval [i]. *)
Definition forEachBody (i : nat) (forecast : Forecast) (element : Cwa.WeatherElement)
  : Completion Forecast :=
  t <- index (Cwa.time element) i "parameter" ;;;
  let value := Cwa.parameter t in
  let tag := Cwa.elementName element in
  Normal
    (if tag =? "Wx" then set_weather (Cwa.parameterName value) forecast
     else if tag =? "PoP" then set_rain (Cwa.parameterName value +:+ "%") forecast
     else if tag =? "MinT" then set_minTemp (Cwa.parameterName value +:+ "°C") forecast
     else if tag =? "MaxT" then set_maxTemp (Cwa.parameterName value +:+ "°C") forecast
     else if tag =? "CI" then set_comfort (Cwa.parameterName value) forecast
     else if tag =? "WS" then set_windSpeed (Cwa.parameterName value) forecast
     else forecast).

(** [weatherElements.forEach(...)]: the callback runs on the elements in
    array order; an exception leaves the loop. *)
Fixpoint forEach (i : nat) (elements : list Cwa.WeatherElement) (forecast : Forecast)
  : Completion Forecast :=
  match elements with
  | [] => Normal forecast
  | element :: rest =>
      forecast' <- forEachBody i forecast element ;;;
      forEach i rest forecast'
  end.

(** One iteration of the [for] loop: build the forecast of interval [i]. *)
Definition interval (weatherElements : list Cwa.WeatherElement) (i : nat)
  : Completion Forecast :=
  first <- index weatherElements 0 "time" ;;;
  t1 <- index (Cwa.time first) i "startTime" ;;;
  t2 <- index (Cwa.time first) i "endTime" ;;;
  let forecast :=
    {| startTime := Cwa.startTime t1; endTime := Cwa.endTime t2;
       weather := ""; rain := ""; minTemp := ""; maxTemp := "";
       comfort := ""; windSpeed := "" |} in
  forEach i weatherElements forecast.

(** [for (let i = ...; i < timeCount; i++)], with [remaining = timeCount - i]
    iterations to go; [forecasts] is [weatherData.forecasts]. *)
Fixpoint forLoop (weatherElements : list Cwa.WeatherElement)
    (remaining i : nat) (forecasts : list Forecast) : Completion (list Forecast) :=
  match remaining with
  | O => Normal forecasts
  | S remaining' =>
      forecast <- interval weatherElements i ;;;
      forLoop weatherElements remaining' (S i) (forecasts ++ [forecast])
  end.

(** From [const weatherElements = ...] to the end of the [for] loop. *)
Definition normalize (weatherElements : list Cwa.WeatherElement)
  : Completion (list Forecast) :=
  first <- index weatherElements 0 "time" ;;;
  let timeCount := length (Cwa.time first) in
  forLoop weatherElements timeCount 0 [].

(** ** Responses *)

(** The member [key] of an object; [None] when the document is not an
    object or has no such member. *)
Definition member (key : string) (doc : JSON) : option JSON :=
  match doc with
  | JObj members => snd <$> List.find (fun kv => fst kv =? key) members
  | _ => None
  end.

Record HttpResponse := {
  status : Z;
  body : JSON
}.

(** [res.status(code).json(doc)] *)
Definition res_status_json (code : Z) (doc : JSON) : HttpResponse :=
  {| status := code; body := doc |}.

(** [res.json(doc)]: the status stays at Express' default. *)
Definition res_json (doc : JSON) : HttpResponse :=
  {| status := 200; body := doc |}.

(** The forecast object as it is serialised. *)
Definition forecastJSON (f : Forecast) : JSON :=
  JObj [("startTime", JStr (startTime f)); ("endTime", JStr (endTime f));
        ("weather", JStr (weather f)); ("rain", JStr (rain f));
        ("minTemp", JStr (minTemp f)); ("maxTemp", JStr (maxTemp f));
        ("comfort", JStr (comfort f)); ("windSpeed", JStr (windSpeed f))].

(** ** The outbound call *)

(** The second argument of [axios.get] together with its URL. *)
Record AxiosRequest := {
  url : string;
  Authorization : JSValue;
  locationName : JSValue
}.

(** How [await axios.get(...)] ends: fulfilled with [response.data.records],
    or rejected, with [error.response] set when the provider answered with a
    status outside 2xx and unset when no answer arrived. *)
Inductive AxiosOutcome :=
| Fulfilled (records : Cwa.Records)
| Rejected (response : option ErrorResponse).

(** The provider, as seen from the handler. *)
Definition Upstream := AxiosRequest -> AxiosOutcome.

(** Handler code: it may call the provider, and every call is logged. *)
Definition Async (A : Type) : Type :=
  Upstream -> list AxiosRequest -> Completion A * list AxiosRequest.

Definition ret {A} (a : A) : Async A :=
  fun _ calls => (Normal a, calls).

Definition bindA {A B} (m : Async A) (k : A -> Async B) : Async B :=
  fun upstream calls =>
    match m upstream calls with
    | (Normal a, calls') => k a upstream calls'
    | (Throw e, calls') => (Throw e, calls')
    end.

Notation "x <~ c ;;; k" := (bindA c (fun x => k))
  (at level 100, c at next level, right associativity).

(** Exception-only code run inside a handler. *)
Definition lift {A} (c : Completion A) : Async A :=
  fun _ calls => (c, calls).

(** [await axios.get(url, { params })] *)
Definition axios_get (request : AxiosRequest) : Async Cwa.Records :=
  fun upstream calls =>
    (match upstream request with
     | Fulfilled records => Normal records
     | Rejected response => Throw (AxiosError response)
     end, calls ++ [request]).

(** [try { body } catch (error) { handler }] *)
Definition try_catch {A} (body : Async A) (handler : JSError -> Async A) : Async A :=
  fun upstream calls =>
    match body upstream calls with
    | (Normal a, calls') => (Normal a, calls')
    | (Throw error, calls') => handler error upstream calls'
    end.

(** ** Configuration *)

Definition CWA_API_BASE_URL : string := "https://opendata.cwa.gov.tw/api".

(** [process.env.NAME]: a string, or [undefined] when the variable is not
    set. *)
Definition process_env (value : option string) : JSValue :=
  match value with
  | Some s => JSString s
  | None => JSUndefined
  end.

(** ** [getCityWeather] *)

(** The three texts in which the revisions differ. *)
Definition unsupportedMessage (r : Revision) (cityCode : string) : string :=
  match r with
  | AllCounties =>
      "不支援 '" +:+ cityCode +:+
      "'。請使用正確的城市代碼 (例如: taipei, hualien, penghu...)"
  | SixMunicipalities =>
      "不支援此城市代碼，請使用: taipei, new_taipei, taoyuan, taichung, tainan, kaohsiung"
  end.

Definition noDataMessage (r : Revision) (targetLocation : JSValue) : string :=
  match r with
  | AllCounties =>
      "無法取得 " +:+ ToString targetLocation +:+
      " 的天氣資料，請確認 CWA API 來源是否正常。"
  | SixMunicipalities =>
      "無法取得 " +:+ ToString targetLocation +:+ " 的天氣資料"
  end.

(** [data.message]: reading a property of [null] throws. *)
Definition readMessage (data : ErrorData) : Completion (option JSON) :=
  match data with
  | NullBody => Throw (TypeError "Cannot read properties of null (reading 'message')")
  | BodyWith message => Normal message
  end.

(** [message || "無法取得天氣資料"] *)
Definition messageOrDefault (message : option JSON) : JSON :=
  match message with
  | Some m => if truthyJSON m then m else JStr "無法取得天氣資料"
  | None => JStr "無法取得天氣資料"
  end.

(** The [catch] block.  With [error.response] set, the argument of [json]
    reads [error.response.data.message]; when that read throws, the
    exception leaves the handler and no response is sent. *)
Definition catchBlock (error : JSError) : Completion HttpResponse :=
  match error with
  | AxiosError (Some response) =>
      message <- readMessage (upstreamData response) ;;;
      Normal
        (res_status_json (upstreamStatus response)
           (JObj [("error", JStr "CWA API 錯誤");
                  ("message", messageOrDefault message)]))
  | _ =>
      Normal
        (res_status_json 500
           (JObj [("error", JStr "伺服器錯誤");
                  ("message", JStr "無法取得天氣資料，請稍後再試")]))
  end.

Definition getCityWeather (r : Revision) (CWA_API_KEY : JSValue) (cityCode : string)
  : Async HttpResponse :=
  try_catch
    (let targetLocation := get_property (CITY_MAP r) cityCode in
     if negb (truthy targetLocation) then
       ret (res_status_json 400
              (JObj [("success", JBool false);
                     ("error", JStr "參數錯誤");
                     ("message", JStr (unsupportedMessage r cityCode))]))
     else if negb (truthy CWA_API_KEY) then
       ret (res_status_json 500
              (JObj [("error", JStr "伺服器設定錯誤");
                     ("message", JStr "請在 .env 檔案中設定 CWA_API_KEY")]))
     else
       records <~ axios_get
                    {| url := CWA_API_BASE_URL +:+ "/v1/rest/datastore/F-C0032-001";
                       Authorization := CWA_API_KEY;
                       locationName := targetLocation |} ;;;
       match Cwa.location records !! 0 with
       | None =>
           ret (res_status_json 404
                  (JObj [("error", JStr "查無資料");
                         ("message", JStr (noDataMessage r targetLocation))]))
       | Some locationData =>
           forecasts <~ lift (normalize (Cwa.weatherElement locationData)) ;;;
           ret (res_json
                  (JObj [("success", JBool true);
                         ("data",
                          JObj [("city", JStr (Cwa.locationName locationData));
                                ("cityCode", JStr cityCode);
                                ("updateTime", JStr (Cwa.datasetDescription records));
                                ("forecasts", JArr (forecastJSON <$> forecasts))])]))
       end)
    (fun error => lift (catchBlock error)).

(** ** The application *)

(** What Express does with a request before any code of [server.js] runs:
    it selects a route, or a middleware ahead of the routes ([express.json],
    the decoding of [:city]) fails with an error whose [message] is given.
    Path matching and those failures are the framework's. *)
Inductive Route :=
| Root
| Health
| Weather (city : string)
| Unmatched
| MiddlewareError (message : string).

(** What the handlers read from [req] and from the clock. *)
Record Request := {
  route : Route;
  protocol : string;
  host : JSValue;
  now : string
}.

(** [app.get("/", ...)] *)
Definition home (r : Revision) (req : Request) : HttpResponse :=
  match r with
  | AllCounties =>
      let baseUrl := protocol req +:+ "://" +:+ ToString (host req) +:+ "/api/weather/" in
      res_json
        (JObj [("message", JStr "歡迎使用全臺天氣預報 API");
               ("usage", JStr "請在網址後方加上城市代碼");
               ("example", JStr (baseUrl +:+ "taipei"));
               ("available_cities",
                JObj ((fun kv => (fst kv, JStr (baseUrl +:+ fst kv)))
                        <$> CITY_MAP_entries r))])
  | SixMunicipalities =>
      res_json
        (JObj [("message", JStr "歡迎使用 CWA 天氣預報 API (六都版)");
               ("endpoints",
                JObj [("taipei", JStr "/api/weather/taipei");
                      ("new_taipei", JStr "/api/weather/new_taipei");
                      ("taoyuan", JStr "/api/weather/taoyuan");
                      ("taichung", JStr "/api/weather/taichung");
                      ("tainan", JStr "/api/weather/tainan");
                      ("kaohsiung", JStr "/api/weather/kaohsiung")])])
  end.

(** [app.get("/api/health", ...)] *)
Definition health (req : Request) : HttpResponse :=
  res_json (JObj [("status", JStr "OK"); ("timestamp", JStr (now req))]).

(** The last [app.use]: the 404 handler. *)
Definition notFound (r : Revision) : HttpResponse :=
  match r with
  | AllCounties =>
      res_status_json 404
        (JObj [("error", JStr "找不到此路徑");
               ("message", JStr "請確認網址是否正確")])
  | SixMunicipalities =>
      res_status_json 404 (JObj [("error", JStr "找不到此路徑")])
  end.

(** The [app.use] with four parameters: the error-handling middleware,
    called with the error a middleware passed on. *)
Definition errorMiddleware (err_message : string) : HttpResponse :=
  res_status_json 500
    (JObj [("error", JStr "伺服器錯誤"); ("message", JStr err_message)]).

(** The application.  A [Throw] is a rejected promise of [getCityWeather]:
    the handler has sent no response. *)
Definition app (r : Revision) (CWA_API_KEY : JSValue) (req : Request)
  : Async HttpResponse :=
  match route req with
  | Root => ret (home r req)
  | Health => ret (health req)
  | Weather city => getCityWeather r CWA_API_KEY city
  | Unmatched => ret (notFound r)
  | MiddlewareError message => ret (errorMiddleware message)
  end.

(** Running a handler against a provider, from an empty call log. *)
Definition run {A} (m : Async A) (upstream : Upstream) : Completion A * list AxiosRequest :=
  m upstream [].

(** ** Vocabulary of the statements *)

(** The six optional fields of a forecast object. *)
Inductive Field := FWeather | FRain | FMinTemp | FMaxTemp | FComfort | FWindSpeed.

(** The element name that feeds a field. *)
Definition tagOf (fld : Field) : string :=
  match fld with
  | FWeather => "Wx"
  | FRain => "PoP"
  | FMinTemp => "MinT"
  | FMaxTemp => "MaxT"
  | FComfort => "CI"
  | FWindSpeed => "WS"
  end.

(** The literal appended to the provider's value. *)
Definition suffixOf (fld : Field) : string :=
  match fld with
  | FRain => "%"
  | FMinTemp | FMaxTemp => "°C"
  | FWeather | FComfort | FWindSpeed => ""
  end.

(** The key of the field in the serialised forecast. *)
Definition keyOf (fld : Field) : string :=
  match fld with
  | FWeather => "weather"
  | FRain => "rain"
  | FMinTemp => "minTemp"
  | FMaxTemp => "maxTemp"
  | FComfort => "comfort"
  | FWindSpeed => "windSpeed"
  end.

Definition getField (fld : Field) (f : Forecast) : string :=
  match fld with
  | FWeather => weather f
  | FRain => rain f
  | FMinTemp => minTemp f
  | FMaxTemp => maxTemp f
  | FComfort => comfort f
  | FWindSpeed => windSpeed f
  end.

Definition recognizedTags : list string := ["Wx"; "PoP"; "MinT"; "MaxT"; "CI"; "WS"].

Definition recognized (tag : string) : bool := bool_decide (tag ∈ recognizedTags).

(** A record with [N] aligned time entries: at least one element, and every
    element's time series has length [N]. *)
Definition alignedAt (N : nat) (elements : list Cwa.WeatherElement) : Prop :=
  elements <> [] /\ Forall (fun e => length (Cwa.time e) = N) elements.

(** Every element's time series is at least as long as the first's. *)
Definition coversFirst (elements : list Cwa.WeatherElement) : Prop :=
  exists first, elements !! 0 = Some first /\
    Forall (fun e => length (Cwa.time first) <= length (Cwa.time e)) elements.

(** Some element's time series is shorter than the first's. *)
Definition someShorter (elements : list Cwa.WeatherElement) : Prop :=
  exists first e, elements !! 0 = Some first /\ e ∈ elements /\
    length (Cwa.time e) < length (Cwa.time first).

(** Some element's time series differs in length from the first's. *)
Definition someMismatch (elements : list Cwa.WeatherElement) : Prop :=
  exists first e, elements !! 0 = Some first /\ e ∈ elements /\
    length (Cwa.time e) <> length (Cwa.time first).

(** The last element of the array that carries [tag]. *)
Definition lastTagged (tag : string) (elements : list Cwa.WeatherElement)
  : option Cwa.WeatherElement :=
  last (List.filter (fun e => Cwa.elementName e =? tag) elements).

(** The provider's value of element [e] at interval [i]. *)
Definition valueAt (e : Cwa.WeatherElement) (i : nat) : string :=
  match Cwa.time e !! i with
  | Some t => Cwa.parameterName (Cwa.parameter t)
  | None => ""
  end.

(** What a field of interval [i] holds after all elements were visited,
    starting from [initial]. *)
Definition fieldValue (fld : Field) (i : nat) (elements : list Cwa.WeatherElement)
    (initial : string) : string :=
  match lastTagged (tagOf fld) elements with
  | Some e => valueAt e i +:+ suffixOf fld
  | None => initial
  end.

(** The forecast of interval [i], whose times come from the entry [t] of
    the first element. *)
Definition expectedForecast (elements : list Cwa.WeatherElement) (i : nat)
    (t : Cwa.TimeEntry) : Forecast :=
  {| startTime := Cwa.startTime t;
     endTime := Cwa.endTime t;
     weather := fieldValue FWeather i elements "";
     rain := fieldValue FRain i elements "";
     minTemp := fieldValue FMinTemp i elements "";
     maxTemp := fieldValue FMaxTemp i elements "";
     comfort := fieldValue FComfort i elements "";
     windSpeed := fieldValue FWindSpeed i elements "" |}.

(** Two elements that agree on everything the normaliser may show: name and
    interval times, and the values too when the name is a recognised tag. *)
Definition sameUpToIgnoredValues (e e' : Cwa.WeatherElement) : Prop :=
  Cwa.elementName e = Cwa.elementName e' /\
  Forall2 (fun t t' =>
             Cwa.startTime t = Cwa.startTime t' /\
             Cwa.endTime t = Cwa.endTime t' /\
             (recognized (Cwa.elementName e) = true ->
              Cwa.parameter t = Cwa.parameter t'))
          (Cwa.time e) (Cwa.time e').

(** The request [getCityWeather] sends for a resolved location. *)
Definition requestFor (CWA_API_KEY targetLocation : JSValue) : AxiosRequest :=
  {| url := "https://opendata.cwa.gov.tw/api/v1/rest/datastore/F-C0032-001";
     Authorization := CWA_API_KEY;
     locationName := targetLocation |}.

(** The body of the generic server error. *)
Definition serverErrorBody : JSON :=
  JObj [("error", JStr "伺服器錯誤");
        ("message", JStr "無法取得天氣資料，請稍後再試")].

(** The label under which a failure response names its category. *)
Definition errorLabel (resp : HttpResponse) : option JSON := member "error" (body resp).

Definition messageOf (resp : HttpResponse) : option JSON := member "message" (body resp).

(** ** Sample payloads *)

Definition entry (start stop value : string) : Cwa.TimeEntry :=
  {| Cwa.startTime := start; Cwa.endTime := stop;
     Cwa.parameter := {| Cwa.parameterName := value |} |}.

Definition series (tag : string) (values : list string) : Cwa.WeatherElement :=
  {| Cwa.elementName := tag;
     Cwa.time :=
       imap (fun i v =>
               entry (if Nat.even i then "06:00" else "18:00")
                     (if Nat.even i then "18:00" else "06:00") v) values |}.

(** Six recognised elements, three intervals each. *)
Definition sixElements : list Cwa.WeatherElement :=
  [series "Wx" ["晴"; "多雲"; "陰"];
   series "PoP" ["0"; "20"; "70"];
   series "MinT" ["18"; "17"; "16"];
   series "CI" ["舒適"; "舒適"; "稍有寒意"];
   series "MaxT" ["25"; "23"; "20"];
   series "WS" ["2"; "3"; "4"]].

(** The second element has one entry more than the first. *)
Definition longerSecond : list Cwa.WeatherElement :=
  [series "Wx" ["晴"]; series "PoP" ["10"; "30"]].

(** The second element has one entry less than the first. *)
Definition shorterSecond : list Cwa.WeatherElement :=
  [series "Wx" ["晴"; "陰"]; series "PoP" ["10"]].

(** Two elements named [PoP], and one with a name outside the six. *)
Definition repeatedPoP : list Cwa.WeatherElement :=
  [series "PoP" ["10"; "30"]; series "UVI" ["7"; "1"]; series "PoP" ["40"; "60"]].

(** [repeatedPoP] with other values in the unrecognised element. *)
Definition repeatedPoP' : list Cwa.WeatherElement :=
  [series "PoP" ["10"; "30"]; series "UVI" ["high"; "low"]; series "PoP" ["40"; "60"]].

(** A provider that answers every request with one location. *)
Definition answering (elements : list Cwa.WeatherElement) : Upstream :=
  fun _ =>
    Fulfilled {| Cwa.datasetDescription := "三十六小時天氣預報";
                 Cwa.location := [{| Cwa.locationName := "臺北市";
                                     Cwa.weatherElement := elements |}] |}.


(** A provider that answers with status 502 and the body [null]. *)
Definition nullBody : Upstream :=
  fun _ => Rejected (Some {| upstreamStatus := 502; upstreamData := NullBody |}).

(** A provider that knows no location. *)
Definition emptyHanded : Upstream :=
  fun _ => Fulfilled {| Cwa.datasetDescription := ""; Cwa.location := [] |}.

(** ** Further vocabulary *)

(** [e] with its time series cut to its first [n] entries. *)
Definition truncated (n : nat) (e : Cwa.WeatherElement) : Cwa.WeatherElement :=
  {| Cwa.elementName := Cwa.elementName e; Cwa.time := take n (Cwa.time e) |}.

(** Two elements with the same name and, interval by interval, the same
    value; their interval times are unconstrained. *)
Definition sameValues (e e' : Cwa.WeatherElement) : Prop :=
  Cwa.elementName e = Cwa.elementName e' /\
  Forall2 (fun t t' => Cwa.parameter t = Cwa.parameter t') (Cwa.time e) (Cwa.time e').

(** The member of the home document that lists the links. *)
Definition listingKey (r : Revision) : string :=
  match r with
  | AllCounties => "available_cities"
  | SixMunicipalities => "endpoints"
  end.

(** The response sent when normalisation succeeds. *)
Definition successResponse (cityCode : string) (records : Cwa.Records)
    (locationData : Cwa.Location) (forecasts : list Forecast) : HttpResponse :=
  res_json
    (JObj [("success", JBool true);
           ("data",
            JObj [("city", JStr (Cwa.locationName locationData));
                  ("cityCode", JStr cityCode);
                  ("updateTime", JStr (Cwa.datasetDescription records));
                  ("forecasts", JArr (forecastJSON <$> forecasts))])]).

(** A [PoP] series whose interval times disagree with those of [series]. *)
Definition offsetPoP : Cwa.WeatherElement :=
  {| Cwa.elementName := "PoP";
     Cwa.time := [entry "00:00" "12:00" "10"; entry "12:00" "00:00" "30"] |}.

(** A provider that answers with two locations. *)
Definition twoLocations : Upstream :=
  fun _ =>
    Fulfilled {| Cwa.datasetDescription := "三十六小時天氣預報";
                 Cwa.location := [{| Cwa.locationName := "臺北市";
                                     Cwa.weatherElement := sixElements |};
                                  {| Cwa.locationName := "高雄市";
                                     Cwa.weatherElement := shorterSecond |}] |}.

(** The response to a provider error with a readable body. *)
Definition upstreamErrorResponse (status : Z) (message : option JSON) : HttpResponse :=
  res_status_json status
    (JObj [("error", JStr "CWA API 錯誤"); ("message", messageOrDefault message)]).

(** The ways [getCityWeather] can end, each with the conditions under which
    it is taken, the outcome (a response, or an exception that leaves the
    handler) and the outbound calls. *)
Inductive Path (r : Revision) (CWA_API_KEY : JSValue) (cityCode : string)
    (upstream : Upstream) : Completion HttpResponse -> list AxiosRequest -> Prop :=
| PathUnresolved :
    truthy (get_property (CITY_MAP r) cityCode) = false ->
    Path r CWA_API_KEY cityCode upstream
      (Normal (res_status_json 400
         (JObj [("success", JBool false); ("error", JStr "參數錯誤");
                ("message", JStr (unsupportedMessage r cityCode))]))) []
| PathNoKey :
    truthy (get_property (CITY_MAP r) cityCode) = true ->
    truthy CWA_API_KEY = false ->
    Path r CWA_API_KEY cityCode upstream
      (Normal (res_status_json 500
         (JObj [("error", JStr "伺服器設定錯誤");
                ("message", JStr "請在 .env 檔案中設定 CWA_API_KEY")]))) []
| PathUnreachable :
    truthy (get_property (CITY_MAP r) cityCode) = true ->
    truthy CWA_API_KEY = true ->
    upstream (requestFor CWA_API_KEY (get_property (CITY_MAP r) cityCode))
      = Rejected None ->
    Path r CWA_API_KEY cityCode upstream
      (Normal (res_status_json 500 serverErrorBody))
      [requestFor CWA_API_KEY (get_property (CITY_MAP r) cityCode)]
| PathUpstreamError status message :
    truthy (get_property (CITY_MAP r) cityCode) = true ->
    truthy CWA_API_KEY = true ->
    upstream (requestFor CWA_API_KEY (get_property (CITY_MAP r) cityCode))
      = Rejected (Some {| upstreamStatus := status;
                          upstreamData := BodyWith message |}) ->
    Path r CWA_API_KEY cityCode upstream
      (Normal (upstreamErrorResponse status message))
      [requestFor CWA_API_KEY (get_property (CITY_MAP r) cityCode)]
| PathNullBody status :
    truthy (get_property (CITY_MAP r) cityCode) = true ->
    truthy CWA_API_KEY = true ->
    upstream (requestFor CWA_API_KEY (get_property (CITY_MAP r) cityCode))
      = Rejected (Some {| upstreamStatus := status; upstreamData := NullBody |}) ->
    Path r CWA_API_KEY cityCode upstream
      (Throw (TypeError "Cannot read properties of null (reading 'message')"))
      [requestFor CWA_API_KEY (get_property (CITY_MAP r) cityCode)]
| PathNoLocation records :
    truthy (get_property (CITY_MAP r) cityCode) = true ->
    truthy CWA_API_KEY = true ->
    upstream (requestFor CWA_API_KEY (get_property (CITY_MAP r) cityCode))
      = Fulfilled records ->
    Cwa.location records !! 0 = None ->
    Path r CWA_API_KEY cityCode upstream
      (Normal (res_status_json 404
         (JObj [("error", JStr "查無資料");
                ("message",
                 JStr (noDataMessage r (get_property (CITY_MAP r) cityCode)))])))
      [requestFor CWA_API_KEY (get_property (CITY_MAP r) cityCode)]
| PathThrows records locationData msg :
    truthy (get_property (CITY_MAP r) cityCode) = true ->
    truthy CWA_API_KEY = true ->
    upstream (requestFor CWA_API_KEY (get_property (CITY_MAP r) cityCode))
      = Fulfilled records ->
    Cwa.location records !! 0 = Some locationData ->
    normalize (Cwa.weatherElement locationData) = Throw (TypeError msg) ->
    Path r CWA_API_KEY cityCode upstream
      (Normal (res_status_json 500 serverErrorBody))
      [requestFor CWA_API_KEY (get_property (CITY_MAP r) cityCode)]
| PathSuccess records locationData forecasts :
    truthy (get_property (CITY_MAP r) cityCode) = true ->
    truthy CWA_API_KEY = true ->
    upstream (requestFor CWA_API_KEY (get_property (CITY_MAP r) cityCode))
      = Fulfilled records ->
    Cwa.location records !! 0 = Some locationData ->
    normalize (Cwa.weatherElement locationData) = Normal forecasts ->
    Path r CWA_API_KEY cityCode upstream
      (Normal (successResponse cityCode records locationData forecasts))
      [requestFor CWA_API_KEY (get_property (CITY_MAP r) cityCode)].

(** A request on the weather route, for the examples. *)
Definition weatherRequest (city : string) : Request :=
  {| route := Weather city; protocol := "https";
     host := JSString "example.org"; now := "2025-01-01T00:00:00.000Z" |}.

(** * Properties *)

(** ** The element callback *)

Section ForEach.

Implicit Types (e : Cwa.WeatherElement) (f : Forecast) (fld : Field).

Lemma Forecast_ext f g :
  startTime f = startTime g -> endTime f = endTime g ->
  (forall fld, getField fld f = getField fld g) -> f = g.
Proof.
  intros Hs He Hf. destruct f, g; simpl in *.
  pose proof (Hf FWeather). pose proof (Hf FRain). pose proof (Hf FMinTemp).
  pose proof (Hf FMaxTemp). pose proof (Hf FComfort). pose proof (Hf FWindSpeed).
  simpl in *. congruence.
Qed.

Lemma append_empty_r (s : string) : s +:+ "" = s.
Proof.
  induction s as [|c s IH]; [reflexivity|].
  change (String c (s +:+ "") = String c s). by rewrite IH.
Qed.

Lemma tagOf_recognized fld : recognized (tagOf fld) = true.
Proof. by destruct fld. Qed.

Lemma recognized_tagOf tag : recognized tag = true -> exists fld, tag = tagOf fld.
Proof.
  unfold recognized, recognizedTags. intros H%bool_decide_eq_true.
  repeat (apply elem_of_cons in H as [->|H]);
    [by exists FWeather|by exists FRain|by exists FMinTemp
    |by exists FMaxTemp|by exists FComfort|by exists FWindSpeed|].
  by apply elem_of_nil in H.
Qed.

Lemma tagOf_inj fld fld' : tagOf fld = tagOf fld' -> fld = fld'.
Proof. by destruct fld, fld'. Qed.

(** The [switch]: the one field whose tag is the element's name receives
    the value and its suffix; the times and the other fields stay. *)
Lemma forEachBody_in_range i f e t :
  Cwa.time e !! i = Some t ->
  exists f', forEachBody i f e = Normal f' /\
    startTime f' = startTime f /\ endTime f' = endTime f /\
    forall fld, getField fld f' =
      if Cwa.elementName e =? tagOf fld
      then Cwa.parameterName (Cwa.parameter t) +:+ suffixOf fld
      else getField fld f.
Proof.
  intros Ht. unfold forEachBody, index. rewrite Ht. simpl.
  eexists. split; [reflexivity|].
  destruct (String.eqb_spec (Cwa.elementName e) "Wx") as [->|?];
    [|destruct (String.eqb_spec (Cwa.elementName e) "PoP") as [->|?];
      [|destruct (String.eqb_spec (Cwa.elementName e) "MinT") as [->|?];
        [|destruct (String.eqb_spec (Cwa.elementName e) "MaxT") as [->|?];
          [|destruct (String.eqb_spec (Cwa.elementName e) "CI") as [->|?];
            [|destruct (String.eqb_spec (Cwa.elementName e) "WS") as [->|?]]]]]];
    (split; [reflexivity|split; [reflexivity|]]);
    intros []; simpl; try reflexivity;
    try (by rewrite append_empty_r);
    repeat match goal with
           | H : Cwa.elementName e <> _ |- _ =>
               apply String.eqb_neq in H; try rewrite H; clear H
           end; reflexivity.
Qed.

Lemma forEachBody_out_of_range i f e :
  Cwa.time e !! i = None ->
  forEachBody i f e =
    Throw (TypeError "Cannot read properties of undefined (reading 'parameter')").
Proof. intros Ht. unfold forEachBody, index. by rewrite Ht. Qed.

End ForEach.

(** ** The two loops *)

Section Loops.

Implicit Types (e first : Cwa.WeatherElement) (f : Forecast) (fld : Field).
Implicit Types (elements : list Cwa.WeatherElement) (t : Cwa.TimeEntry).

Lemma lastTagged_cons tag e elements :
  lastTagged tag (e :: elements) =
    match lastTagged tag elements with
    | Some e' => Some e'
    | None => if Cwa.elementName e =? tag then Some e else None
    end.
Proof.
  unfold lastTagged. simpl.
  destruct (Cwa.elementName e =? tag); [apply last_cons|].
  by destruct (last _).
Qed.

Lemma lastTagged_app_cons tag before e after :
  Cwa.elementName e = tag ->
  Forall (fun e' => Cwa.elementName e' <> tag) after ->
  lastTagged tag (before ++ e :: after) = Some e.
Proof.
  intros He Hafter. induction before as [|b before IH]; simpl.
  - rewrite lastTagged_cons.
    assert (lastTagged tag after = None) as ->.
    { clear He. induction Hafter as [|a after Ha _ IH]; [done|].
      rewrite lastTagged_cons, IH.
      by apply String.eqb_neq in Ha as ->. }
    by apply String.eqb_eq in He as ->.
  - by rewrite lastTagged_cons, IH.
Qed.

Lemma lastTagged_absent tag elements :
  tag ∉ Cwa.elementName <$> elements -> lastTagged tag elements = None.
Proof.
  induction elements as [|e elements IH]; [done|].
  rewrite fmap_cons, not_elem_of_cons. intros [Hne Hnin].
  rewrite lastTagged_cons, IH by done.
  assert (Cwa.elementName e <> tag) as Hne' by congruence.
  by apply String.eqb_neq in Hne' as ->.
Qed.

Lemma lastTagged_Some tag elements e :
  lastTagged tag elements = Some e -> e ∈ elements /\ Cwa.elementName e = tag.
Proof.
  induction elements as [|a elements IH]; [done|].
  rewrite lastTagged_cons. destruct (lastTagged tag elements) as [e'|].
  - intros [= ->]. destruct IH as [? ?]; [done|]. split; [by right|done].
  - destruct (String.eqb_spec (Cwa.elementName a) tag); [|done].
    intros [= ->]. split; [by left|done].
Qed.

(** All callbacks of one interval succeed when every element has an
    entry at [i]; each field then holds the value of the last element
    carrying its tag. *)
Lemma forEach_in_range i elements f :
  Forall (fun e => i < length (Cwa.time e)) elements ->
  exists f', forEach i elements f = Normal f' /\
    startTime f' = startTime f /\ endTime f' = endTime f /\
    forall fld, getField fld f' = fieldValue fld i elements (getField fld f).
Proof.
  intros Hall. revert f.
  induction Hall as [|e elements He _ IH]; intros f.
  { exists f. by repeat split. }
  apply lookup_lt_is_Some_2 in He as [t Ht].
  destruct (forEachBody_in_range i f e t Ht) as (f1 & Hbody & Hs1 & He1 & Hf1).
  destruct (IH f1) as (f' & Hrest & Hs & He' & Hf).
  exists f'. simpl. rewrite Hbody. simpl. split; [done|].
  split; [congruence|]. split; [congruence|].
  intros fld. rewrite Hf. unfold fieldValue. rewrite lastTagged_cons.
  destruct (lastTagged (tagOf fld) elements); [done|].
  rewrite Hf1. destruct (Cwa.elementName e =? tagOf fld); [|done].
  unfold valueAt. by rewrite Ht.
Qed.

(** One element without an entry at [i] makes the interval throw. *)
Lemma forEach_out_of_range i elements f :
  Exists (fun e => length (Cwa.time e) <= i) elements ->
  exists msg, forEach i elements f = Throw (TypeError msg).
Proof.
  revert f. induction elements as [|e elements IH]; intros f Hex.
  { by apply Exists_nil in Hex. }
  simpl. destruct (Cwa.time e !! i) as [t|] eqn:Ht.
  - destruct (forEachBody_in_range i f e t Ht) as (f1 & -> & _). simpl.
    apply Exists_cons in Hex as [Hhere|Hlater]; [|by apply IH].
    apply lookup_lt_Some in Ht. lia.
  - rewrite forEachBody_out_of_range by done. simpl. eauto.
Qed.

Lemma interval_in_range elements first i t :
  elements !! 0 = Some first -> Cwa.time first !! i = Some t ->
  Forall (fun e => i < length (Cwa.time e)) elements ->
  interval elements i = Normal (expectedForecast elements i t).
Proof.
  intros Hfirst Ht Hall. unfold interval, index. rewrite Hfirst. simpl.
  rewrite Ht. simpl.
  edestruct (forEach_in_range i elements) as (f' & -> & Hs & He & Hf); [done|].
  f_equal. apply Forecast_ext; [done|done|].
  intros fld. rewrite Hf. by destruct fld.
Qed.

Lemma interval_out_of_range elements i :
  elements <> [] ->
  Exists (fun e => length (Cwa.time e) <= i) elements ->
  exists msg, interval elements i = Throw (TypeError msg).
Proof.
  intros Hne Hex. unfold interval, index.
  destruct elements as [|first elements]; [done|]. simpl.
  destruct (Cwa.time first !! i); simpl; [|by eauto].
  exact (forEach_out_of_range i (first :: elements) _ Hex).
Qed.

(** The [for] loop over the entries of the first element that are still
    to come. *)
Lemma forLoop_covers elements first :
  elements !! 0 = Some first ->
  Forall (fun e => length (Cwa.time first) <= length (Cwa.time e)) elements ->
  forall ts i forecasts,
    drop i (Cwa.time first) = ts ->
    forLoop elements (length ts) i forecasts =
      Normal (forecasts ++ imap (fun k => expectedForecast elements (i + k)) ts).
Proof.
  intros Hfirst Hall. induction ts as [|t ts IH]; intros i forecasts Hdrop.
  { simpl. by rewrite app_nil_r. }
  assert (Cwa.time first !! i = Some t) as Ht.
  { rewrite <- (Nat.add_0_r i), <- lookup_drop, Hdrop. done. }
  assert (drop (S i) (Cwa.time first) = ts) as Hdrop'.
  { rewrite (drop_S _ _ _ Ht) in Hdrop. congruence. }
  simpl. erewrite interval_in_range; [|done|done|].
  - simpl. rewrite (IH (S i)) by done. rewrite <- app_assoc. simpl.
    rewrite Nat.add_0_r. do 3 f_equal.
    apply imap_ext. intros k x _. simpl. f_equal. lia.
  - apply lookup_lt_Some in Ht.
    eapply Forall_impl; [exact Hall|]. simpl. intros e He. lia.
Qed.

Lemma forLoop_shorter elements first :
  elements !! 0 = Some first ->
  Exists (fun e => length (Cwa.time e) < length (Cwa.time first)) elements ->
  forall remaining i forecasts,
    i + remaining = length (Cwa.time first) ->
    Forall (fun e => i <= length (Cwa.time e)) elements ->
    exists msg, forLoop elements remaining i forecasts = Throw (TypeError msg).
Proof.
  intros Hfirst Hshort.
  induction remaining as [|remaining IH]; intros i forecasts Hsum Hsofar.
  { apply Exists_exists in Hshort as (e & Hin & Hlt).
    rewrite Forall_forall in Hsofar. specialize (Hsofar e Hin). lia. }
  assert (elements <> []) as Hne by (by destruct elements).
  destruct (decide (Exists (fun e => length (Cwa.time e) <= i) elements))
    as [Hex|Hnex].
  - destruct (interval_out_of_range elements i Hne Hex) as [msg Hmsg].
    exists msg. simpl. by rewrite Hmsg.
  - apply not_Exists_Forall in Hnex; [|intros e; apply _].
    destruct (lookup_lt_is_Some_2 (Cwa.time first) i) as [t Ht]; [lia|].
    simpl. erewrite interval_in_range; [|done|done|].
    + simpl. apply IH; [lia|].
      eapply Forall_impl; [exact Hnex|]. simpl. intros e He. lia.
    + eapply Forall_impl; [exact Hnex|]. simpl. intros e He. lia.
Qed.

(** Normalisation succeeds as soon as no element is shorter than the
    first, and yields one forecast per entry of the first element. *)
Lemma normalize_covers elements first :
  elements !! 0 = Some first ->
  Forall (fun e => length (Cwa.time first) <= length (Cwa.time e)) elements ->
  normalize elements = Normal (imap (expectedForecast elements) (Cwa.time first)).
Proof.
  intros Hfirst Hall. unfold normalize, index. rewrite Hfirst. simpl.
  by rewrite (forLoop_covers elements first Hfirst Hall _ 0 []).
Qed.

Lemma normalize_empty :
  normalize [] = Throw (TypeError "Cannot read properties of undefined (reading 'time')").
Proof. reflexivity. Qed.

Lemma normalize_shorter elements :
  someShorter elements -> exists msg, normalize elements = Throw (TypeError msg).
Proof.
  intros (first & e & Hfirst & Hin & Hlt).
  unfold normalize, index. rewrite Hfirst. simpl.
  eapply forLoop_shorter; [done| |done|].
  - apply Exists_exists. eauto.
  - apply Forall_forall. intros; lia.
Qed.

Lemma alignedAt_first N elements :
  alignedAt N elements ->
  exists first, elements !! 0 = Some first /\ length (Cwa.time first) = N /\
    Forall (fun e => length (Cwa.time first) <= length (Cwa.time e)) elements.
Proof.
  intros [Hne Hall]. destruct elements as [|first elements]; [done|].
  exists first. split; [done|].
  pose proof (Forall_inv Hall) as Hfirst. simpl in Hfirst. split; [done|].
  eapply Forall_impl; [exact Hall|]. simpl. intros e He. lia.
Qed.

(** On an aligned record the loop computes [expectedForecast] for every
    entry of the first element, in order. *)
Lemma normalize_aligned N elements :
  alignedAt N elements ->
  exists first, elements !! 0 = Some first /\ length (Cwa.time first) = N /\
    normalize elements = Normal (imap (expectedForecast elements) (Cwa.time first)).
Proof.
  intros (first & Hfirst & Hlen & Hall)%alignedAt_first.
  exists first. by rewrite (normalize_covers _ _ Hfirst Hall).
Qed.

End Loops.

(** ** [CITY_MAP] and the prototype chain *)

Section CityMap.

Lemma CITY_MAP_keys_NoDup r : NoDup (CITY_MAP_entries r).*1.
Proof. destruct r; apply (bool_decide_unpack _); by vm_compute. Qed.

Lemma CITY_MAP_lookup r cityCode name :
  CITY_MAP r !! cityCode = Some name <-> (cityCode, name) ∈ CITY_MAP_entries r.
Proof.
  unfold CITY_MAP. symmetry. apply elem_of_list_to_map, CITY_MAP_keys_NoDup.
Qed.

Lemma CITY_MAP_lookup_None r cityCode :
  CITY_MAP r !! cityCode = None <-> cityCode ∉ (CITY_MAP_entries r).*1.
Proof. unfold CITY_MAP. symmetry. apply not_elem_of_list_to_map. Qed.

Lemma CITY_MAP_names_truthy r :
  Forall (fun kv => truthy (JSString kv.2) = true) (CITY_MAP_entries r).
Proof. destruct r; apply (bool_decide_unpack _); by vm_compute. Qed.

(** A configured code reads its own property, a non-empty string. *)
Lemma configured_resolves r cityCode name :
  CITY_MAP r !! cityCode = Some name ->
  get_property (CITY_MAP r) cityCode = JSString name /\
  truthy (get_property (CITY_MAP r) cityCode) = true.
Proof.
  intros Hown. unfold get_property. rewrite Hown. split; [done|].
  apply CITY_MAP_lookup in Hown.
  pose proof (CITY_MAP_names_truthy r) as Hall.
  rewrite Forall_forall in Hall. exact (Hall _ Hown).
Qed.

(** The lookup compares keys exactly: a code that is neither configured
    nor a member of [Object.prototype] reads [undefined]. *)
Lemma unconfigured_undefined r cityCode :
  cityCode ∉ (CITY_MAP_entries r).*1 ->
  Object_prototype cityCode = JSUndefined ->
  get_property (CITY_MAP r) cityCode = JSUndefined.
Proof.
  intros Hnin Hproto. unfold get_property.
  by apply CITY_MAP_lookup_None in Hnin as ->.
Qed.

End CityMap.

(** ** The paths through [getCityWeather] *)

Section Handler.

Variables (r : Revision) (CWA_API_KEY : JSValue) (cityCode : string).
Variable upstream : Upstream.

Local Abbreviation targetLocation := (get_property (CITY_MAP r) cityCode).
Local Abbreviation request := (requestFor CWA_API_KEY targetLocation).

Ltac start :=
  cbv beta iota zeta delta
    [run getCityWeather try_catch bindA axios_get ret lift
     requestFor CWA_API_BASE_URL String.append].

Ltac step H := intros H; rewrite H; cbn [negb]; cbv beta iota.

Lemma getCityWeather_unresolved :
  truthy targetLocation = false ->
  run (getCityWeather r CWA_API_KEY cityCode) upstream =
    (Normal (res_status_json 400
               (JObj [("success", JBool false); ("error", JStr "參數錯誤");
                      ("message", JStr (unsupportedMessage r cityCode))])), []).
Proof. start. by intros ->. Qed.

Lemma getCityWeather_no_key :
  truthy targetLocation = true -> truthy CWA_API_KEY = false ->
  run (getCityWeather r CWA_API_KEY cityCode) upstream =
    (Normal (res_status_json 500
               (JObj [("error", JStr "伺服器設定錯誤");
                      ("message", JStr "請在 .env 檔案中設定 CWA_API_KEY")])), []).
Proof. start. by intros -> ->. Qed.

Hypothesis resolved : truthy targetLocation = true.
Hypothesis configured : truthy CWA_API_KEY = true.

Lemma getCityWeather_rejected response :
  upstream request = Rejected response ->
  run (getCityWeather r CWA_API_KEY cityCode) upstream =
    (catchBlock (AxiosError response), [request]).
Proof.
  generalize resolved configured. start.
  step H1. step H2. step H3. reflexivity.
Qed.

Lemma getCityWeather_no_location records :
  upstream request = Fulfilled records -> Cwa.location records !! 0 = None ->
  run (getCityWeather r CWA_API_KEY cityCode) upstream =
    (Normal (res_status_json 404
               (JObj [("error", JStr "查無資料");
                      ("message", JStr (noDataMessage r targetLocation))])),
     [request]).
Proof.
  generalize resolved configured. start.
  step H1. step H2. step H3. step H4. reflexivity.
Qed.

Lemma getCityWeather_throws records locationData error :
  upstream request = Fulfilled records ->
  Cwa.location records !! 0 = Some locationData ->
  normalize (Cwa.weatherElement locationData) = Throw error ->
  run (getCityWeather r CWA_API_KEY cityCode) upstream =
    (catchBlock error, [request]).
Proof.
  generalize resolved configured. start.
  step H1. step H2. step H3. step H4. step H5. reflexivity.
Qed.

Lemma getCityWeather_success records locationData forecasts :
  upstream request = Fulfilled records ->
  Cwa.location records !! 0 = Some locationData ->
  normalize (Cwa.weatherElement locationData) = Normal forecasts ->
  run (getCityWeather r CWA_API_KEY cityCode) upstream =
    (Normal (res_json
               (JObj [("success", JBool true);
                      ("data",
                       JObj [("city", JStr (Cwa.locationName locationData));
                             ("cityCode", JStr cityCode);
                             ("updateTime", JStr (Cwa.datasetDescription records));
                             ("forecasts", JArr (forecastJSON <$> forecasts))])])),
     [request]).
Proof.
  generalize resolved configured. start.
  step H1. step H2. step H3. step H4. step H5. reflexivity.
Qed.

End Handler.

(** Normalisation either succeeds or throws a [TypeError]; it throws exactly
    on an empty element array and on an element shorter than the first. *)
Lemma normalize_cases (elements : list Cwa.WeatherElement) :
  (exists first, elements !! 0 = Some first /\
     normalize elements = Normal (imap (expectedForecast elements) (Cwa.time first))) \/
  ((elements = [] \/ someShorter elements) /\
   exists msg, normalize elements = Throw (TypeError msg)).
Proof.
  destruct elements as [|first rest] eqn:E.
  { right. split; [by left|]. rewrite normalize_empty. eauto. }
  rewrite <- E. assert (elements !! 0 = Some first) as Hfirst by by subst.
  destruct (decide (Exists (fun e => length (Cwa.time e) < length (Cwa.time first))
                      elements)) as [Hex|Hnex].
  - right. assert (someShorter elements) as Hshort.
    { apply Exists_exists in Hex as (e & Hin & Hlt). by exists first, e. }
    split; [by right|]. by apply normalize_shorter.
  - left. exists first. split; [done|]. apply normalize_covers; [done|].
    apply not_Exists_Forall in Hnex; [|intros e; apply _].
    eapply Forall_impl; [exact Hnex|]. simpl. intros e He. lia.
Qed.

(** The handler always ends along one of the paths of [Path]. *)
Lemma getCityWeather_paths r CWA_API_KEY cityCode upstream :
  exists outcome calls,
    run (getCityWeather r CWA_API_KEY cityCode) upstream = (outcome, calls) /\
    Path r CWA_API_KEY cityCode upstream outcome calls.
Proof.
  destruct (truthy (get_property (CITY_MAP r) cityCode)) eqn:Hres.
  2:{ eexists _, _. split; [by apply getCityWeather_unresolved|by constructor]. }
  destruct (truthy CWA_API_KEY) eqn:Hkey.
  2:{ eexists _, _. split; [by apply getCityWeather_no_key|by constructor]. }
  destruct (upstream (requestFor CWA_API_KEY (get_property (CITY_MAP r) cityCode)))
    as [records|[[status [|message]]|]] eqn:Hup.
  - destruct (Cwa.location records !! 0) as [locationData|] eqn:Hloc.
    + destruct (normalize_cases (Cwa.weatherElement locationData))
        as [(first & _ & Hnorm)|(_ & msg & Hnorm)].
      * eexists _, _. split; [by eapply getCityWeather_success|].
        by eapply PathSuccess.
      * eexists _, _. split; [by eapply getCityWeather_throws|].
        by eapply PathThrows.
    + eexists _, _. split; [by eapply getCityWeather_no_location|].
      by eapply PathNoLocation.
  - eexists _, _. split; [by eapply getCityWeather_rejected|].
    by eapply PathNullBody.
  - eexists _, _. split; [by eapply getCityWeather_rejected|].
    by eapply PathUpstreamError.
  - eexists _, _. split; [by eapply getCityWeather_rejected|].
    by eapply PathUnreachable.
Qed.

(** * The claims *)

(** ** Malformed records *)

(** C1, as the code has it: when the handler reaches normalisation with a
    location record that has zero weather elements, or in which some
    element's time series is shorter than the first element's, normalisation
    throws a [TypeError], the handler answers with the generic HTTP 500
    server error, and that response carries no [data] member, hence no
    forecast interval. *)
Theorem C1_malformed_record_fails r CWA_API_KEY cityCode upstream records locationData :
  truthy (get_property (CITY_MAP r) cityCode) = true ->
  truthy CWA_API_KEY = true ->
  upstream (requestFor CWA_API_KEY (get_property (CITY_MAP r) cityCode))
    = Fulfilled records ->
  Cwa.location records !! 0 = Some locationData ->
  Cwa.weatherElement locationData = [] \/ someShorter (Cwa.weatherElement locationData) ->
  (exists msg, normalize (Cwa.weatherElement locationData) = Throw (TypeError msg)) /\
  run (getCityWeather r CWA_API_KEY cityCode) upstream =
    (Normal (res_status_json 500 serverErrorBody),
     [requestFor CWA_API_KEY (get_property (CITY_MAP r) cityCode)]) /\
  member "data" serverErrorBody = None.
Proof.
  intros Hres Hkey Hup Hloc Hbad.
  assert (exists msg, normalize (Cwa.weatherElement locationData) = Throw (TypeError msg))
    as [msg Hthrow].
  { destruct Hbad as [->|Hshort]; [rewrite normalize_empty; eauto|].
    by apply normalize_shorter. }
  split; [by exists msg|]. split; [|reflexivity].
  by rewrite (getCityWeather_throws r CWA_API_KEY cityCode upstream Hres Hkey
                records locationData (TypeError msg)).
Qed.

Lemma C1_malformed_record_fails_witness :
  (exists msg, normalize shorterSecond = Throw (TypeError msg)) /\
  run (getCityWeather AllCounties (JSString "CWA-KEY") "taipei") (answering shorterSecond) =
    (Normal (res_status_json 500 serverErrorBody),
     [requestFor (JSString "CWA-KEY") (JSString "臺北市")]).
Proof.
  destruct (C1_malformed_record_fails AllCounties (JSString "CWA-KEY") "taipei"
              (answering shorterSecond)
              {| Cwa.datasetDescription := "三十六小時天氣預報";
                 Cwa.location := [{| Cwa.locationName := "臺北市";
                                     Cwa.weatherElement := shorterSecond |}] |}
              {| Cwa.locationName := "臺北市"; Cwa.weatherElement := shorterSecond |})
    as (Hthrow & Hrun & _).
  - reflexivity.
  - reflexivity.
  - reflexivity.
  - reflexivity.
  - right. exists (series "Wx" ["晴"; "陰"]), (series "PoP" ["10"]).
    split; [reflexivity|]. split; [|simpl; lia].
    apply list_elem_of_lookup. exists 1. reflexivity.
  - split; [exact Hthrow|exact Hrun].
Defined.

(** C1 as stated fails: an element whose time series is longer than the
    first element's is a mismatch, yet normalisation succeeds and the
    response carries a forecast interval. *)
Lemma C1_longer_series_is_accepted :
  someMismatch longerSecond /\
  normalize longerSecond =
    Normal [{| startTime := "06:00"; endTime := "18:00"; weather := "晴";
               rain := "10%"; minTemp := ""; maxTemp := ""; comfort := "";
               windSpeed := "" |}] /\
  ~ (forall elements, someMismatch elements ->
       exists error, normalize elements = Throw error) /\
  exists resp calls,
    run (getCityWeather AllCounties (JSString "CWA-KEY") "taipei") (answering longerSecond)
      = (Normal resp, calls) /\
    status resp = 200%Z /\
    (member "data" (body resp) ≫= member "forecasts") =
      Some (JArr [JObj [("startTime", JStr "06:00"); ("endTime", JStr "18:00");
                        ("weather", JStr "晴"); ("rain", JStr "10%");
                        ("minTemp", JStr ""); ("maxTemp", JStr "");
                        ("comfort", JStr ""); ("windSpeed", JStr "")]]).
Proof.
  assert (someMismatch longerSecond) as Hmis.
  { exists (series "Wx" ["晴"]), (series "PoP" ["10"; "30"]).
    split; [reflexivity|]. split; [|simpl; lia].
    apply list_elem_of_lookup. exists 1. reflexivity. }
  split; [exact Hmis|]. split; [reflexivity|]. split.
  - intros Hall. destruct (Hall longerSecond Hmis) as [error Herr].
    discriminate Herr.
  - eexists _, _. split; [reflexivity|]. split; reflexivity.
Qed.

(** ** City codes *)

(** C2 at the failing input: [toString] is not a configured code, yet
    [CITY_MAP["toString"]] reads the function inherited from
    [Object.prototype], which is truthy; the handler does not answer 400 but
    goes on to the credential check and, with a credential, sends the
    function to the provider as [locationName]; whatever it answers then
    does not carry the invalid-code label (it answers unless the provider's
    error body is [null]). *)
Theorem C2_inherited_name_is_not_rejected r :
  ("toString" ∉ (CITY_MAP_entries r).*1) /\
  CITY_MAP r !! "toString" = None /\
  get_property (CITY_MAP r) "toString" = JSFunction "toString" /\
  (forall upstream,
     run (getCityWeather r JSUndefined "toString") upstream =
       (Normal (res_status_json 500
                  (JObj [("error", JStr "伺服器設定錯誤");
                         ("message", JStr "請在 .env 檔案中設定 CWA_API_KEY")])), [])) /\
  (forall upstream key, truthy key = true ->
     exists outcome,
       run (getCityWeather r key "toString") upstream =
         (outcome, [requestFor key (JSFunction "toString")]) /\
       ((exists resp, outcome = Normal resp /\
           errorLabel resp <> Some (JStr "參數錯誤")) \/
        (exists status,
           upstream (requestFor key (JSFunction "toString")) =
             Rejected (Some {| upstreamStatus := status;
                               upstreamData := NullBody |})))).
Proof.
  assert (CITY_MAP r !! "toString" = None) as Hnone by by destruct r.
  assert (get_property (CITY_MAP r) "toString" = JSFunction "toString") as Hget.
  { unfold get_property. by rewrite Hnone. }
  split; [by apply CITY_MAP_lookup_None|]. split; [done|]. split; [done|].
  split.
  - intros upstream. apply getCityWeather_no_key; [by rewrite Hget|done].
  - intros upstream key Hkey.
    destruct (getCityWeather_paths r key "toString" upstream)
      as (outcome & calls & Hrun & Hpath).
    destruct Hpath; rewrite ?Hget in *; try (simpl in *; congruence);
      (eexists; split; [exact Hrun|]);
      first [by left; eexists|right; by eexists].
Qed.

(** The part of C2 the code does satisfy: every configured code reads its
    documented name, and a string that is neither configured nor a member
    of [Object.prototype] is answered with 400 and no outbound call. *)
Lemma CityDirectory_exact r cityCode CWA_API_KEY upstream :
  (forall name, (cityCode, name) ∈ CITY_MAP_entries r ->
     get_property (CITY_MAP r) cityCode = JSString name) /\
  (cityCode ∉ (CITY_MAP_entries r).*1 -> Object_prototype cityCode = JSUndefined ->
     run (getCityWeather r CWA_API_KEY cityCode) upstream =
       (Normal (res_status_json 400
                  (JObj [("success", JBool false); ("error", JStr "參數錯誤");
                         ("message", JStr (unsupportedMessage r cityCode))])), [])).
Proof.
  split.
  - intros name Hin. apply CITY_MAP_lookup in Hin.
    by apply configured_resolves in Hin as [? _].
  - intros Hnin Hproto. apply getCityWeather_unresolved.
    by rewrite unconfigured_undefined.
Qed.

(** The comparison is case-sensitive: [Taipei] is not [taipei]. *)
Example capitalised_code_is_rejected r CWA_API_KEY upstream :
  fst (run (getCityWeather r CWA_API_KEY "Taipei") upstream) =
    Normal (res_status_json 400
              (JObj [("success", JBool false); ("error", JStr "參數錯誤");
                     ("message", JStr (unsupportedMessage r "Taipei"))])).
Proof.
  rewrite (proj2 (CityDirectory_exact r "Taipei" CWA_API_KEY upstream)); [done| |done].
  apply CITY_MAP_lookup_None. by destruct r.
Qed.

(** ** The credential *)

(** C4: when the city code resolves ([CITY_MAP[cityCode]] is truthy, as it is
    for every configured code) and the credential is absent or empty, the
    handler answers HTTP 500 with the misconfiguration label and the log of
    outbound calls stays empty. *)
Theorem C4_no_credential_no_call r value cityCode upstream :
  truthy (get_property (CITY_MAP r) cityCode) = true ->
  value = None \/ value = Some "" ->
  exists resp,
    run (getCityWeather r (process_env value) cityCode) upstream = (Normal resp, []) /\
    status resp = 500%Z /\
    errorLabel resp = Some (JStr "伺服器設定錯誤").
Proof.
  intros Hres Hvalue. eexists. split.
  - apply getCityWeather_no_key; [done|]. by destruct Hvalue as [->| ->].
  - done.
Qed.

Lemma C4_no_credential_no_call_witness :
  exists resp,
    run (getCityWeather AllCounties (process_env None) "hualien") emptyHanded
      = (Normal resp, []) /\
    status resp = 500%Z /\
    errorLabel resp = Some (JStr "伺服器設定錯誤").
Proof.
  apply (C4_no_credential_no_call AllCounties None "hualien" emptyHanded).
  - reflexivity.
  - left. reflexivity.
Defined.

(** ** No data *)

(** C6: when the code is configured (it resolves to [name]), the credential
    is set and the provider's payload has no location entry, the handler
    answers HTTP 404 with the no-data label after one outbound call, and the
    message contains [name]. *)
Theorem C6_no_location_is_404 r CWA_API_KEY cityCode name upstream records :
  CITY_MAP r !! cityCode = Some name ->
  truthy CWA_API_KEY = true ->
  upstream (requestFor CWA_API_KEY (JSString name)) = Fulfilled records ->
  Cwa.location records = [] ->
  exists resp,
    run (getCityWeather r CWA_API_KEY cityCode) upstream =
      (Normal resp, [requestFor CWA_API_KEY (JSString name)]) /\
    status resp = 404%Z /\
    errorLabel resp = Some (JStr "查無資料") /\
    exists before after, messageOf resp = Some (JStr (before +:+ name +:+ after)).
Proof.
  intros Hown Hkey Hup Hnone.
  destruct (configured_resolves r cityCode name Hown) as [Hget Hres].
  eexists. split.
  - rewrite <- Hget. eapply getCityWeather_no_location; [done|done| |].
    + by rewrite Hget.
    + by rewrite Hnone.
  - split; [done|]. split; [done|]. rewrite Hget.
    destruct r; eexists _, _; reflexivity.
Qed.

Lemma C6_no_location_is_404_witness :
  exists resp,
    run (getCityWeather AllCounties (JSString "CWA-KEY") "penghu") emptyHanded =
      (Normal resp, [requestFor (JSString "CWA-KEY") (JSString "澎湖縣")]) /\
    status resp = 404%Z /\
    errorLabel resp = Some (JStr "查無資料") /\
    exists before after, messageOf resp = Some (JStr (before +:+ "澎湖縣" +:+ after)).
Proof.
  apply (C6_no_location_is_404 AllCounties (JSString "CWA-KEY") "penghu" "澎湖縣"
           emptyHanded {| Cwa.datasetDescription := ""; Cwa.location := [] |}).
  - reflexivity.
  - reflexivity.
  - reflexivity.
  - reflexivity.
Defined.

(** ** Aligned records *)

Section Aligned.

Implicit Types (e first : Cwa.WeatherElement) (f : Forecast) (fld : Field).
Implicit Types (elements : list Cwa.WeatherElement).

(** The forecasts of an aligned record, field by field. *)
Lemma normalize_fields N elements :
  alignedAt N elements ->
  exists first forecasts,
    elements !! 0 = Some first /\ length (Cwa.time first) = N /\
    normalize elements = Normal forecasts /\ length forecasts = N /\
    forall i f, forecasts !! i = Some f ->
      exists t, Cwa.time first !! i = Some t /\
        startTime f = Cwa.startTime t /\ endTime f = Cwa.endTime t /\
        forall fld, getField fld f = fieldValue fld i elements "".
Proof.
  intros (first & Hfirst & Hlen & Hnorm)%normalize_aligned.
  exists first, (imap (expectedForecast elements) (Cwa.time first)).
  split; [done|]. split; [done|]. split; [done|].
  split; [by rewrite length_imap|].
  intros i f. rewrite list_lookup_imap.
  destruct (Cwa.time first !! i) as [t|]; [|done].
  intros [= <-]. exists t. split; [done|]. split; [done|]. split; [done|].
  by intros [].
Qed.

Lemma lastTagged_NoDup elements e :
  NoDup (Cwa.elementName <$> elements) -> e ∈ elements ->
  lastTagged (Cwa.elementName e) elements = Some e.
Proof.
  intros Hnodup (before & after & ->)%list_elem_of_split.
  apply lastTagged_app_cons; [done|].
  rewrite fmap_app, fmap_cons in Hnodup.
  apply NoDup_app in Hnodup as (_ & _ & Hnodup).
  apply NoDup_cons in Hnodup as [Hnin _].
  apply Forall_forall. intros e' Hin Heq. apply Hnin. rewrite <- Heq.
  by apply list_elem_of_fmap_2.
Qed.

Lemma member_forecastJSON fld f :
  member (keyOf fld) (forecastJSON f) = Some (JStr (getField fld f)).
Proof. by destruct fld. Qed.

Lemma alignedAt_lookup N elements e i :
  alignedAt N elements -> e ∈ elements -> i < N -> is_Some (Cwa.time e !! i).
Proof.
  intros [_ Hall] Hin Hi. rewrite Forall_forall in Hall.
  apply lookup_lt_is_Some_2. rewrite (Hall e Hin). done.
Qed.

End Aligned.

(** C3: a record with [N] aligned time entries whose element names are the
    six recognised tags, once each and in any order, yields exactly [N]
    forecasts; in the [i]-th one [rain] is the [PoP] element's [i]-th value
    followed by [%], and [minTemp] and [maxTemp] are the [MinT] and [MaxT]
    elements' [i]-th values followed by [°C]. *)
Theorem C3_six_tags_give_N_forecasts N elements :
  alignedAt N elements ->
  Cwa.elementName <$> elements ≡ₚ recognizedTags ->
  exists forecasts,
    normalize elements = Normal forecasts /\ length forecasts = N /\
    forall i f e t,
      forecasts !! i = Some f -> e ∈ elements -> Cwa.time e !! i = Some t ->
      (Cwa.elementName e = "PoP" ->
       rain f = Cwa.parameterName (Cwa.parameter t) +:+ "%") /\
      (Cwa.elementName e = "MinT" ->
       minTemp f = Cwa.parameterName (Cwa.parameter t) +:+ "°C") /\
      (Cwa.elementName e = "MaxT" ->
       maxTemp f = Cwa.parameterName (Cwa.parameter t) +:+ "°C").
Proof.
  intros Haligned Hperm.
  destruct (normalize_fields N elements Haligned)
    as (first & forecasts & _ & _ & Hnorm & Hlen & Hfields).
  exists forecasts. split; [done|]. split; [done|].
  intros i f e t Hf Hin Ht.
  destruct (Hfields i f Hf) as (_ & _ & _ & _ & Hfld).
  assert (NoDup (Cwa.elementName <$> elements)) as Hnodup.
  { rewrite Hperm. apply (bool_decide_unpack _). by vm_compute. }
  pose proof (lastTagged_NoDup elements e Hnodup Hin) as Hlast.
  assert (valueAt e i = Cwa.parameterName (Cwa.parameter t)) as Hval
    by (unfold valueAt; by rewrite Ht).
  repeat split; intros Htag; rewrite Htag in Hlast.
  - change (rain f) with (getField FRain f). rewrite Hfld. unfold fieldValue.
    simpl. by rewrite Hlast, Hval.
  - change (minTemp f) with (getField FMinTemp f). rewrite Hfld. unfold fieldValue.
    simpl. by rewrite Hlast, Hval.
  - change (maxTemp f) with (getField FMaxTemp f). rewrite Hfld. unfold fieldValue.
    simpl. by rewrite Hlast, Hval.
Qed.

Lemma C3_six_tags_give_N_forecasts_witness :
  exists forecasts,
    normalize sixElements = Normal forecasts /\ length forecasts = 3 /\
    forall i f e t,
      forecasts !! i = Some f -> e ∈ sixElements -> Cwa.time e !! i = Some t ->
      (Cwa.elementName e = "PoP" ->
       rain f = Cwa.parameterName (Cwa.parameter t) +:+ "%") /\
      (Cwa.elementName e = "MinT" ->
       minTemp f = Cwa.parameterName (Cwa.parameter t) +:+ "°C") /\
      (Cwa.elementName e = "MaxT" ->
       maxTemp f = Cwa.parameterName (Cwa.parameter t) +:+ "°C").
Proof.
  apply (C3_six_tags_give_N_forecasts 3 sixElements).
  - split; [discriminate|]. repeat constructor.
  - apply (bool_decide_unpack _). vm_compute. reflexivity.
Defined.

(** C7: on an aligned record, a field whose element name occurs nowhere in
    the record is the empty string in every forecast, and the serialised
    forecast has that key with the string value [""]. *)
Theorem C7_missing_element_leaves_empty_string N elements fld :
  alignedAt N elements ->
  tagOf fld ∉ Cwa.elementName <$> elements ->
  exists forecasts,
    normalize elements = Normal forecasts /\ length forecasts = N /\
    Forall (fun f => getField fld f = "" /\
                     member (keyOf fld) (forecastJSON f) = Some (JStr ""))
           forecasts.
Proof.
  intros Haligned Hmissing.
  destruct (normalize_fields N elements Haligned)
    as (first & forecasts & _ & _ & Hnorm & Hlen & Hfields).
  exists forecasts. split; [done|]. split; [done|].
  apply Forall_lookup. intros i f Hf.
  destruct (Hfields i f Hf) as (_ & _ & _ & _ & Hfld).
  assert (getField fld f = "") as Hempty.
  { rewrite Hfld. unfold fieldValue. by rewrite lastTagged_absent. }
  split; [done|]. by rewrite member_forecastJSON, Hempty.
Qed.

Lemma C7_missing_element_leaves_empty_string_witness :
  exists forecasts,
    normalize repeatedPoP = Normal forecasts /\ length forecasts = 2 /\
    Forall (fun f => getField FMinTemp f = "" /\
                     member (keyOf FMinTemp) (forecastJSON f) = Some (JStr ""))
           forecasts.
Proof.
  apply (C7_missing_element_leaves_empty_string 2 repeatedPoP FMinTemp).
  - split; [discriminate|]. repeat constructor.
  - apply (bool_decide_unpack _). vm_compute. reflexivity.
Defined.

(** C9: on an aligned record with [N] time entries the forecasts come in the
    order of the first element's time entries: there are [N] of them, and
    the [i]-th takes [startTime] and [endTime] from the first element's
    [i]-th entry. *)
Theorem C9_forecasts_follow_first_element N elements first :
  alignedAt N elements ->
  elements !! 0 = Some first ->
  exists forecasts,
    normalize elements = Normal forecasts /\ length forecasts = N /\
    (fun f => (startTime f, endTime f)) <$> forecasts =
      (fun t => (Cwa.startTime t, Cwa.endTime t)) <$> Cwa.time first /\
    forall i t, Cwa.time first !! i = Some t ->
      exists f, forecasts !! i = Some f /\
        startTime f = Cwa.startTime t /\ endTime f = Cwa.endTime t.
Proof.
  intros Haligned Hfirst.
  destruct (normalize_fields N elements Haligned)
    as (first' & forecasts & Hfirst' & Hlen' & Hnorm & Hlen & Hfields).
  assert (first' = first) as -> by congruence.
  exists forecasts. split; [done|]. split; [done|].
  assert (forall i t, Cwa.time first !! i = Some t ->
            exists f, forecasts !! i = Some f /\
              startTime f = Cwa.startTime t /\ endTime f = Cwa.endTime t) as Hith.
  { intros i t Ht.
    destruct (lookup_lt_is_Some_2 forecasts i) as [f Hf].
    { apply lookup_lt_Some in Ht. lia. }
    destruct (Hfields i f Hf) as (t' & Ht' & Hs & He & _).
    exists f. split; [done|]. split; congruence. }
  split; [|exact Hith].
  apply list_eq. intros i. rewrite !list_lookup_fmap.
  destruct (Cwa.time first !! i) as [t|] eqn:Ht.
  - destruct (Hith i t Ht) as (f & -> & Hs & He). simpl. by rewrite Hs, He.
  - apply lookup_ge_None in Ht.
    rewrite (lookup_ge_None_2 forecasts i) by lia. done.
Qed.

Lemma C9_forecasts_follow_first_element_witness :
  exists forecasts,
    normalize sixElements = Normal forecasts /\ length forecasts = 3 /\
    (fun f => (startTime f, endTime f)) <$> forecasts =
      [("06:00", "18:00"); ("18:00", "06:00"); ("06:00", "18:00")] /\
    forall i t, Cwa.time (series "Wx" ["晴"; "多雲"; "陰"]) !! i = Some t ->
      exists f, forecasts !! i = Some f /\
        startTime f = Cwa.startTime t /\ endTime f = Cwa.endTime t.
Proof.
  apply (C9_forecasts_follow_first_element 3 sixElements
           (series "Wx" ["晴"; "多雲"; "陰"])).
  - split; [discriminate|]. repeat constructor.
  - reflexivity.
Defined.

(** C10: on an aligned record, when [e] is the last element of the array
    that carries a recognised tag, the field of that tag holds, in every
    interval, the value of [e] (with the field's suffix), whatever the
    earlier elements with the same tag held. *)
Theorem C10_last_element_with_a_tag_wins N before e after fld :
  alignedAt N (before ++ e :: after) ->
  Cwa.elementName e = tagOf fld ->
  Forall (fun e' => Cwa.elementName e' <> tagOf fld) after ->
  exists forecasts,
    normalize (before ++ e :: after) = Normal forecasts /\ length forecasts = N /\
    forall i f t,
      forecasts !! i = Some f -> Cwa.time e !! i = Some t ->
      getField fld f = Cwa.parameterName (Cwa.parameter t) +:+ suffixOf fld.
Proof.
  intros Haligned Htag Hafter.
  destruct (normalize_fields N _ Haligned)
    as (first & forecasts & _ & _ & Hnorm & Hlen & Hfields).
  exists forecasts. split; [done|]. split; [done|].
  intros i f t Hf Ht.
  destruct (Hfields i f Hf) as (_ & _ & _ & _ & Hfld).
  rewrite Hfld. unfold fieldValue.
  rewrite (lastTagged_app_cons _ before e after Htag Hafter).
  unfold valueAt. by rewrite Ht.
Qed.

Lemma C10_last_element_with_a_tag_wins_witness :
  exists forecasts,
    normalize repeatedPoP = Normal forecasts /\ length forecasts = 2 /\
    forall i f t,
      forecasts !! i = Some f -> Cwa.time (series "PoP" ["40"; "60"]) !! i = Some t ->
      getField FRain f = Cwa.parameterName (Cwa.parameter t) +:+ "%".
Proof.
  apply (C10_last_element_with_a_tag_wins 2
           [series "PoP" ["10"; "30"]; series "UVI" ["7"; "1"]]
           (series "PoP" ["40"; "60"]) [] FRain).
  - split; [discriminate|]. repeat constructor.
  - reflexivity.
  - constructor.
Defined.

(** ** Unrecognised elements *)

Section Ignored.

Implicit Types (e : Cwa.WeatherElement) (elements : list Cwa.WeatherElement).

Lemma valueAt_related e e' i :
  sameUpToIgnoredValues e e' -> recognized (Cwa.elementName e) = true ->
  valueAt e i = valueAt e' i.
Proof.
  intros [_ Htimes] Hrec. unfold valueAt.
  destruct (Cwa.time e !! i) as [t|] eqn:Ht.
  - destruct (Forall2_lookup_l _ _ _ _ _ Htimes Ht) as (t' & -> & _ & _ & Hpar).
    by rewrite Hpar.
  - apply lookup_ge_None in Ht. rewrite (Forall2_length _ _ _ Htimes) in Ht.
    by apply lookup_ge_None in Ht as ->.
Qed.

Lemma lastTagged_related tag elements elements' :
  Forall2 sameUpToIgnoredValues elements elements' ->
  option_Forall2 sameUpToIgnoredValues
    (lastTagged tag elements) (lastTagged tag elements').
Proof.
  induction 1 as [|e e' elements elements' Hrel _ IH]; [constructor|].
  rewrite !lastTagged_cons. destruct IH; [by constructor|].
  destruct Hrel as [Hname Htimes]. rewrite <- Hname.
  destruct (Cwa.elementName e =? tag); by constructor.
Qed.

Lemma fieldValue_related fld i elements elements' initial :
  Forall2 sameUpToIgnoredValues elements elements' ->
  fieldValue fld i elements initial = fieldValue fld i elements' initial.
Proof.
  intros Hrel. unfold fieldValue.
  pose proof (lastTagged_related (tagOf fld) _ _ Hrel) as Hlast.
  destruct (lastTagged (tagOf fld) elements) as [e|] eqn:He;
    inversion Hlast as [? e' Hee'|]; subst; [|done].
  apply lastTagged_Some in He as [_ Hname].
  f_equal. apply valueAt_related; [done|].
  rewrite Hname. apply tagOf_recognized.
Qed.

Lemma alignedAt_related N elements elements' :
  Forall2 sameUpToIgnoredValues elements elements' ->
  alignedAt N elements -> alignedAt N elements'.
Proof.
  intros Hrel [Hne Hall]. split.
  - intros ->. by apply Forall2_nil_inv_r in Hrel.
  - clear Hne. induction Hrel as [|e e' ? ? [_ Htimes] _ IH]; [constructor|].
    apply Forall_cons in Hall as [He Hall]. constructor; [|by apply IH].
    by rewrite <- (Forall2_length _ _ _ Htimes).
Qed.

End Ignored.

(** C8: take an aligned record and change, in any way, the values of the
    elements whose name is outside the six recognised tags (names and
    interval times stay).  Normalisation succeeds on both records, without
    an exception, and yields the same forecasts: no field of any forecast
    depends on the values of an unrecognised element. *)
Theorem C8_unrecognised_elements_are_ignored N elements elements' :
  alignedAt N elements ->
  Forall2 sameUpToIgnoredValues elements elements' ->
  exists forecasts,
    normalize elements = Normal forecasts /\ length forecasts = N /\
    normalize elements' = Normal forecasts.
Proof.
  intros Haligned Hrel.
  pose proof (alignedAt_related N _ _ Hrel Haligned) as Haligned'.
  destruct (normalize_aligned N elements Haligned) as (first & Hfirst & Hlen & Hnorm).
  destruct (normalize_aligned N elements' Haligned') as (first' & Hfirst' & Hlen' & Hnorm').
  eexists. split; [exact Hnorm|]. split; [by rewrite length_imap|].
  rewrite Hnorm'. f_equal.
  destruct (Forall2_lookup_l _ _ _ _ _ Hrel Hfirst) as (first'' & Hfirst'' & _ & Htimes).
  assert (first'' = first') as -> by congruence.
  apply list_eq. intros i. rewrite !list_lookup_imap.
  destruct (Cwa.time first !! i) as [t|] eqn:Ht.
  - destruct (Forall2_lookup_l _ _ _ _ _ Htimes Ht) as (t' & -> & Hs & He & _).
    simpl. f_equal. unfold expectedForecast. rewrite Hs, He.
    by rewrite !(fun fld => fieldValue_related fld i elements elements' "" Hrel).
  - apply lookup_ge_None in Ht. rewrite (Forall2_length _ _ _ Htimes) in Ht.
    by apply lookup_ge_None in Ht as ->.
Qed.

Lemma C8_unrecognised_elements_are_ignored_witness :
  exists forecasts,
    normalize repeatedPoP = Normal forecasts /\ length forecasts = 2 /\
    normalize repeatedPoP' = Normal forecasts.
Proof.
  apply (C8_unrecognised_elements_are_ignored 2 repeatedPoP repeatedPoP').
  - split; [discriminate|]. repeat constructor.
  - unfold repeatedPoP, repeatedPoP'.
    repeat first
      [ constructor;
        [split; [reflexivity|]; cbn;
         repeat first
           [ constructor;
             [split; [reflexivity|]; split; [reflexivity|];
              intros Hrec;
              first [reflexivity|vm_compute in Hrec; discriminate Hrec]|]
           | constructor ]|]
      | constructor ].
Defined.

(** ** Failure responses *)



(** * Further properties of the handler *)

(** ** Every path through [getCityWeather] *)

Lemma Object_prototype_truthy key :
  truthy (Object_prototype key) = true <-> Object_prototype key <> JSUndefined.
Proof.
  unfold Object_prototype.
  destruct (key =? "constructor"); [done|].
  destruct (key =? "__proto__"); [done|].
  by case_bool_decide.
Qed.

Lemma inherited_never_empty key : Object_prototype key <> JSString "".
Proof.
  unfold Object_prototype.
  destruct (key =? "constructor"); [done|].
  destruct (key =? "__proto__"); [done|].
  by case_bool_decide.
Qed.

(** ** Outbound calls *)

(** X1: a request causes at most one outbound call.  There is exactly one,
    to the fixed dataset URL with the credential and the looked-up location
    as parameters, when the route is the weather route, the city code
    resolves and the credential is set; in every other case there is
    none.  A response is sent unless the provider answered that one call
    outside 2xx with the body [null]. *)
Theorem at_most_one_outbound_call r CWA_API_KEY req upstream :
  exists outcome calls,
    run (app r CWA_API_KEY req) upstream = (outcome, calls) /\
    ((calls = [] /\ (exists resp, outcome = Normal resp) /\
      forall city, route req = Weather city ->
        truthy (get_property (CITY_MAP r) city) = false \/ truthy CWA_API_KEY = false)
     \/ exists city,
          route req = Weather city /\
          truthy (get_property (CITY_MAP r) city) = true /\
          truthy CWA_API_KEY = true /\
          calls = [{| url := "https://opendata.cwa.gov.tw/api/v1/rest/datastore/F-C0032-001";
                      Authorization := CWA_API_KEY;
                      locationName := get_property (CITY_MAP r) city |}] /\
          ((exists resp, outcome = Normal resp) \/
           exists status,
             upstream (requestFor CWA_API_KEY (get_property (CITY_MAP r) city)) =
               Rejected (Some {| upstreamStatus := status;
                                 upstreamData := NullBody |}))).
Proof.
  unfold app. destruct (route req) as [| |city| |message] eqn:Hroute;
    try (eexists _, _; split; [reflexivity|]; left; split; [done|];
         split; [by eexists|by intros ?]).
  destruct (getCityWeather_paths r CWA_API_KEY city upstream)
    as (outcome & calls & Hrun & Hpath).
  exists outcome, calls. split; [done|].
  destruct Hpath.
  - left. split; [done|]. split; [by eexists|]. intros ? [= <-]. by left.
  - left. split; [done|]. split; [by eexists|]. intros ? [= <-]. by right.
  - right. exists city. repeat (split; [done|]). left. by eexists.
  - right. exists city. repeat (split; [done|]). left. by eexists.
  - right. exists city. repeat (split; [done|]). right. by eexists.
  - right. exists city. repeat (split; [done|]). left. by eexists.
  - right. exists city. repeat (split; [done|]). left. by eexists.
  - right. exists city. repeat (split; [done|]). left. by eexists.
Qed.

(** ** Which codes are rejected *)

(** X2: the handler answers with the invalid-code label exactly when the
    code is neither a key of [CITY_MAP] nor the name of a member of
    [Object.prototype]; the credential and the provider play no part. *)
Theorem rejected_iff_unknown r CWA_API_KEY cityCode upstream :
  (exists resp calls,
     run (getCityWeather r CWA_API_KEY cityCode) upstream = (Normal resp, calls) /\
     errorLabel resp = Some (JStr "參數錯誤"))
  <-> (cityCode ∉ (CITY_MAP_entries r).*1) /\ Object_prototype cityCode = JSUndefined.
Proof.
  split.
  - intros (resp & calls & Hrun & Hlabel).
    destruct (getCityWeather_paths r CWA_API_KEY cityCode upstream)
      as (outcome & calls' & Hrun' & Hpath).
    assert (outcome = Normal resp) as -> by congruence.
    inversion Hpath as [Hres| | | | | | |]; subst; try discriminate Hlabel.
    unfold get_property in Hres.
    destruct (CITY_MAP r !! cityCode) as [name|] eqn:Hown.
    + apply configured_resolves in Hown as [Hget Htrue].
      rewrite Hget in Htrue. congruence.
    + split; [by apply CITY_MAP_lookup_None|].
      destruct (Object_prototype cityCode) as [|s| |] eqn:Hproto; try done.
      pose proof (inherited_never_empty cityCode) as Hne. rewrite Hproto in Hne.
      simpl in Hres. destruct (String.eqb_spec s ""); [congruence|done].
  - intros [Hnin Hproto]. eexists _, _.
    split; [apply getCityWeather_unresolved; by rewrite unconfigured_undefined|].
    reflexivity.
Qed.

(** ** What the success response holds *)

(** X3: when the code resolves, the credential is set, the provider names
    at least one location and no element of the first location is shorter
    than its first element, the handler answers 200 with [success: true];
    [data.cityCode] echoes the requested code, [data.city] and
    [data.updateTime] are the provider's [locationName] and
    [datasetDescription], and [data.forecasts] has one entry per time entry
    of the first element. *)
Theorem success_response_contents r CWA_API_KEY cityCode upstream records locationData :
  truthy (get_property (CITY_MAP r) cityCode) = true ->
  truthy CWA_API_KEY = true ->
  upstream (requestFor CWA_API_KEY (get_property (CITY_MAP r) cityCode))
    = Fulfilled records ->
  Cwa.location records !! 0 = Some locationData ->
  coversFirst (Cwa.weatherElement locationData) ->
  exists resp data forecasts first,
    run (getCityWeather r CWA_API_KEY cityCode) upstream =
      (Normal resp, [requestFor CWA_API_KEY (get_property (CITY_MAP r) cityCode)]) /\
    status resp = 200%Z /\
    member "success" (body resp) = Some (JBool true) /\
    member "data" (body resp) = Some data /\
    member "city" data = Some (JStr (Cwa.locationName locationData)) /\
    member "cityCode" data = Some (JStr cityCode) /\
    member "updateTime" data = Some (JStr (Cwa.datasetDescription records)) /\
    member "forecasts" data = Some (JArr forecasts) /\
    Cwa.weatherElement locationData !! 0 = Some first /\
    length forecasts = length (Cwa.time first).
Proof.
  intros Hres Hkey Hup Hloc (first & Hfirst & Hall).
  pose proof (normalize_covers _ _ Hfirst Hall) as Hnorm.
  eexists _, _, _, first. split; [by eapply getCityWeather_success|].
  repeat (split; [reflexivity|]). split; [done|].
  by rewrite length_fmap, length_imap.
Qed.

Lemma success_response_contents_witness :
  exists resp data forecasts first,
    run (getCityWeather AllCounties (JSString "CWA-KEY") "taipei") twoLocations =
      (Normal resp, [requestFor (JSString "CWA-KEY") (JSString "臺北市")]) /\
    status resp = 200%Z /\
    member "success" (body resp) = Some (JBool true) /\
    member "data" (body resp) = Some data /\
    member "city" data = Some (JStr "臺北市") /\
    member "cityCode" data = Some (JStr "taipei") /\
    member "updateTime" data = Some (JStr "三十六小時天氣預報") /\
    member "forecasts" data = Some (JArr forecasts) /\
    sixElements !! 0 = Some first /\
    length forecasts = length (Cwa.time first).
Proof.
  apply (success_response_contents AllCounties (JSString "CWA-KEY") "taipei" twoLocations
           {| Cwa.datasetDescription := "三十六小時天氣預報";
              Cwa.location := [{| Cwa.locationName := "臺北市";
                                  Cwa.weatherElement := sixElements |};
                               {| Cwa.locationName := "高雄市";
                                  Cwa.weatherElement := shorterSecond |}] |}
           {| Cwa.locationName := "臺北市"; Cwa.weatherElement := sixElements |}).
  - reflexivity.
  - reflexivity.
  - reflexivity.
  - reflexivity.
  - exists (series "Wx" ["晴"; "多雲"; "陰"]). split; [reflexivity|].
    repeat constructor.
Defined.

(** X4: only [location[0]] is read: two payloads with the same
    [datasetDescription] and the same first location (or both without
    locations) are answered identically, whatever other locations they
    hold. *)
Theorem later_locations_are_ignored r CWA_API_KEY cityCode upstream upstream' records records' :
  upstream (requestFor CWA_API_KEY (get_property (CITY_MAP r) cityCode))
    = Fulfilled records ->
  upstream' (requestFor CWA_API_KEY (get_property (CITY_MAP r) cityCode))
    = Fulfilled records' ->
  Cwa.datasetDescription records = Cwa.datasetDescription records' ->
  Cwa.location records !! 0 = Cwa.location records' !! 0 ->
  run (getCityWeather r CWA_API_KEY cityCode) upstream =
  run (getCityWeather r CWA_API_KEY cityCode) upstream'.
Proof.
  intros Hup Hup' Hdesc Hloc.
  destruct (truthy (get_property (CITY_MAP r) cityCode)) eqn:Hres.
  2:{ by rewrite !getCityWeather_unresolved. }
  destruct (truthy CWA_API_KEY) eqn:Hkey.
  2:{ by rewrite !getCityWeather_no_key. }
  destruct (Cwa.location records !! 0) as [locationData|] eqn:Hfirst.
  - destruct (normalize (Cwa.weatherElement locationData)) as [forecasts|error] eqn:Hn.
    + rewrite (getCityWeather_success r CWA_API_KEY cityCode upstream Hres Hkey
                 records locationData forecasts Hup Hfirst Hn).
      rewrite (getCityWeather_success r CWA_API_KEY cityCode upstream' Hres Hkey
                 records' locationData forecasts Hup' (eq_sym Hloc) Hn).
      by rewrite Hdesc.
    + rewrite (getCityWeather_throws r CWA_API_KEY cityCode upstream Hres Hkey
                 records locationData error Hup Hfirst Hn).
      by rewrite (getCityWeather_throws r CWA_API_KEY cityCode upstream' Hres Hkey
                    records' locationData error Hup' (eq_sym Hloc) Hn).
  - rewrite (getCityWeather_no_location r CWA_API_KEY cityCode upstream Hres Hkey
               records Hup Hfirst).
    by rewrite (getCityWeather_no_location r CWA_API_KEY cityCode upstream' Hres Hkey
                  records' Hup' (eq_sym Hloc)).
Qed.

Lemma later_locations_are_ignored_witness :
  run (getCityWeather AllCounties (JSString "CWA-KEY") "taipei") twoLocations =
  run (getCityWeather AllCounties (JSString "CWA-KEY") "taipei") (answering sixElements).
Proof.
  apply (later_locations_are_ignored AllCounties (JSString "CWA-KEY") "taipei"
           twoLocations (answering sixElements)
           {| Cwa.datasetDescription := "三十六小時天氣預報";
              Cwa.location := [{| Cwa.locationName := "臺北市";
                                  Cwa.weatherElement := sixElements |};
                               {| Cwa.locationName := "高雄市";
                                  Cwa.weatherElement := shorterSecond |}] |}
           {| Cwa.datasetDescription := "三十六小時天氣預報";
              Cwa.location := [{| Cwa.locationName := "臺北市";
                                  Cwa.weatherElement := sixElements |}] |}).
  - reflexivity.
  - reflexivity.
  - reflexivity.
  - reflexivity.
Defined.

(** X5: whenever the weather route sends a response, its [success] member
    is [true] exactly on the 200 response with [data], [false] exactly on
    the 400 response, and absent from every other response, all of which
    are failures with an [error] label and no [data].  A response is sent
    unless the provider answered outside 2xx with the body [null]; then the
    exception leaves the handler after the one outbound call. *)
Theorem success_flag_by_outcome r CWA_API_KEY cityCode upstream :
  exists outcome calls,
    run (getCityWeather r CWA_API_KEY cityCode) upstream = (outcome, calls) /\
    match outcome with
    | Throw error =>
        error = TypeError "Cannot read properties of null (reading 'message')" /\
        calls = [requestFor CWA_API_KEY (get_property (CITY_MAP r) cityCode)] /\
        exists status,
          upstream (requestFor CWA_API_KEY (get_property (CITY_MAP r) cityCode)) =
            Rejected (Some {| upstreamStatus := status; upstreamData := NullBody |})
    | Normal resp =>
        (member "success" (body resp) = Some (JBool true) /\ status resp = 200%Z /\
         is_Some (member "data" (body resp)) /\ errorLabel resp = None)
        \/ (member "success" (body resp) = Some (JBool false) /\ status resp = 400%Z /\
            errorLabel resp = Some (JStr "參數錯誤") /\ member "data" (body resp) = None)
        \/ (member "success" (body resp) = None /\ status resp <> 400%Z /\
            is_Some (errorLabel resp) /\ errorLabel resp <> Some (JStr "參數錯誤") /\
            member "data" (body resp) = None)
        \/ (member "success" (body resp) = None /\
            errorLabel resp = Some (JStr "CWA API 錯誤") /\
            member "data" (body resp) = None)
    end.
Proof.
  destruct (getCityWeather_paths r CWA_API_KEY cityCode upstream)
    as (outcome & calls & Hrun & Hpath).
  exists outcome, calls. split; [done|].
  destruct Hpath.
  - right; left. done.
  - do 2 right; left. done.
  - do 2 right; left. done.
  - do 3 right. done.
  - split; [done|]. split; [done|]. by eexists.
  - do 2 right; left. done.
  - do 2 right; left. done.
  - left. done.
Qed.

(** X13: when the provider answers outside 2xx with the body [null], the
    [catch] block itself throws while reading [message]: after the one
    outbound call the exception leaves [getCityWeather] and the handler
    sends no response. *)
Theorem null_error_body_sends_nothing r CWA_API_KEY cityCode upstream upstream_status :
  truthy (get_property (CITY_MAP r) cityCode) = true ->
  truthy CWA_API_KEY = true ->
  upstream (requestFor CWA_API_KEY (get_property (CITY_MAP r) cityCode)) =
    Rejected (Some {| upstreamStatus := upstream_status; upstreamData := NullBody |}) ->
  run (getCityWeather r CWA_API_KEY cityCode) upstream =
    (Throw (TypeError "Cannot read properties of null (reading 'message')"),
     [requestFor CWA_API_KEY (get_property (CITY_MAP r) cityCode)]).
Proof.
  intros Hres Hkey Hup.
  by rewrite (getCityWeather_rejected r CWA_API_KEY cityCode upstream Hres Hkey _ Hup).
Qed.

Lemma null_error_body_sends_nothing_witness :
  run (getCityWeather AllCounties (JSString "CWA-KEY") "taipei") nullBody =
    (Throw (TypeError "Cannot read properties of null (reading 'message')"),
     [requestFor (JSString "CWA-KEY") (JSString "臺北市")]).
Proof.
  apply (null_error_body_sends_nothing AllCounties (JSString "CWA-KEY") "taipei"
           nullBody 502%Z).
  - reflexivity.
  - reflexivity.
  - reflexivity.
Defined.

(** * Further properties of normalisation *)

Section LastTagged.

Implicit Types (e : Cwa.WeatherElement) (elements : list Cwa.WeatherElement).

Lemma lastTagged_fmap (g : Cwa.WeatherElement -> Cwa.WeatherElement) tag elements :
  (forall e, Cwa.elementName (g e) = Cwa.elementName e) ->
  lastTagged tag (g <$> elements) = g <$> lastTagged tag elements.
Proof.
  intros Hname. induction elements as [|e elements IH]; [done|].
  rewrite fmap_cons, !lastTagged_cons, IH, Hname.
  destruct (lastTagged tag elements); [done|].
  by destruct (Cwa.elementName e =? tag).
Qed.

Lemma lastTagged_None tag elements :
  lastTagged tag elements = None -> tag ∉ Cwa.elementName <$> elements.
Proof.
  induction elements as [|e elements IH]; [intros _; apply not_elem_of_nil|].
  rewrite lastTagged_cons. destruct (lastTagged tag elements); [done|].
  destruct (String.eqb_spec (Cwa.elementName e) tag) as [|Hne]; [done|].
  intros _. rewrite fmap_cons. apply not_elem_of_cons. split; [congruence|by apply IH].
Qed.

Lemma lastTagged_Forall2 (R : relation Cwa.WeatherElement) tag elements elements' :
  (forall e e', R e e' -> Cwa.elementName e = Cwa.elementName e') ->
  Forall2 R elements elements' ->
  option_Forall2 R (lastTagged tag elements) (lastTagged tag elements').
Proof.
  intros Hname. induction 1 as [|e e' elements elements' Hrel _ IH]; [constructor|].
  rewrite !lastTagged_cons. destruct IH; [by constructor|].
  rewrite <- (Hname _ _ Hrel).
  destruct (Cwa.elementName e =? tag); by constructor.
Qed.

Lemma lastTagged_Permutation tag elements elements' :
  NoDup (Cwa.elementName <$> elements) -> elements ≡ₚ elements' ->
  lastTagged tag elements = lastTagged tag elements'.
Proof.
  intros Hnodup Hperm.
  assert (NoDup (Cwa.elementName <$> elements')) as Hnodup' by by rewrite <- Hperm.
  destruct (lastTagged tag elements) as [e|] eqn:Hlast.
  - apply lastTagged_Some in Hlast as [Hin <-].
    symmetry. apply lastTagged_NoDup; [done|]. by rewrite <- Hperm.
  - apply lastTagged_None in Hlast. rewrite Hperm in Hlast.
    symmetry. by apply lastTagged_absent.
Qed.

End LastTagged.

(** X6: normalisation succeeds exactly when the element array is non-empty
    and no element's time series is shorter than the first element's; a
    result has as many forecasts as the first element has time entries. *)
Theorem normalize_succeeds_iff elements :
  ((exists forecasts, normalize elements = Normal forecasts) <-> coversFirst elements) /\
  (forall forecasts, normalize elements = Normal forecasts ->
     exists first, elements !! 0 = Some first /\
       length forecasts = length (Cwa.time first)).
Proof.
  destruct (normalize_cases elements)
    as [(first & Hfirst & Hnorm)|(Hbad & msg & Hthrow)].
  - assert (coversFirst elements) as Hcov.
    { exists first. split; [done|].
      destruct (decide (Exists (fun e => length (Cwa.time e) < length (Cwa.time first))
                          elements)) as [Hex|Hnex].
      - apply Exists_exists in Hex as (e & Hin & Hlt).
        destruct (normalize_shorter elements) as [msg Hthrow]; [by exists first, e|].
        congruence.
      - apply not_Exists_Forall in Hnex; [|intros e; apply _].
        eapply Forall_impl; [exact Hnex|]. simpl. intros e He. lia. }
    split; [split; [done|by eauto]|].
    intros forecasts Hf. exists first. split; [done|].
    rewrite Hnorm in Hf. injection Hf as <-. by rewrite length_imap.
  - split; [|intros forecasts Hf; congruence].
    split; [intros [forecasts Hf]; congruence|].
    intros (first & Hfirst & Hall). exfalso.
    destruct Hbad as [->|(first' & e & Hfirst' & Hin & Hlt)]; [done|].
    assert (first' = first) as -> by congruence.
    rewrite Forall_forall in Hall. specialize (Hall e Hin). lia.
Qed.

(** X7: the entries an element has beyond the first element's length are
    never read: cutting every time series to that length leaves the result
    of a successful normalisation unchanged. *)
Theorem trailing_entries_are_ignored elements first :
  elements !! 0 = Some first ->
  Forall (fun e => length (Cwa.time first) <= length (Cwa.time e)) elements ->
  exists forecasts,
    normalize elements = Normal forecasts /\
    normalize (truncated (length (Cwa.time first)) <$> elements) = Normal forecasts.
Proof.
  intros Hfirst Hall. set (N := length (Cwa.time first)).
  eexists. split; [by apply normalize_covers|].
  assert (Cwa.time (truncated N first) = Cwa.time first) as Htime.
  { unfold truncated. simpl. by apply take_ge. }
  rewrite (normalize_covers _ (truncated N first)).
  - rewrite Htime. f_equal. apply imap_ext. intros i t Ht.
    assert (i < N) as Hi by (by apply lookup_lt_Some in Ht).
    assert (forall fld, fieldValue fld i (truncated N <$> elements) "" =
                        fieldValue fld i elements "") as Hfld.
    { intros fld. unfold fieldValue. rewrite lastTagged_fmap by done.
      destruct (lastTagged (tagOf fld) elements) as [e|]; [|done]. simpl.
      unfold valueAt, truncated. simpl. by rewrite lookup_take_lt. }
    unfold expectedForecast. by rewrite !Hfld.
  - by rewrite list_lookup_fmap, Hfirst.
  - rewrite Htime. apply Forall_fmap. eapply Forall_impl; [exact Hall|].
    intros e He. unfold truncated. simpl in *. rewrite length_take. lia.
Qed.

Lemma trailing_entries_are_ignored_witness :
  exists forecasts,
    normalize longerSecond = Normal forecasts /\
    normalize [series "Wx" ["晴"]; series "PoP" ["10"]] = Normal forecasts.
Proof.
  apply (trailing_entries_are_ignored longerSecond (series "Wx" ["晴"])).
  - reflexivity.
  - repeat constructor.
Defined.

(** X8: when the element names are pairwise distinct, the order of the
    elements does not matter for the six value fields: an aligned record
    and any permutation of it give, interval by interval, the same
    [weather], [rain], [minTemp], [maxTemp], [comfort] and [windSpeed]. *)
Theorem distinct_tags_commute N elements elements' :
  alignedAt N elements ->
  NoDup (Cwa.elementName <$> elements) ->
  elements ≡ₚ elements' ->
  exists forecasts forecasts',
    normalize elements = Normal forecasts /\
    normalize elements' = Normal forecasts' /\
    length forecasts = N /\ length forecasts' = N /\
    forall i f f' fld,
      forecasts !! i = Some f -> forecasts' !! i = Some f' ->
      getField fld f = getField fld f'.
Proof.
  intros Haligned Hnodup Hperm.
  assert (alignedAt N elements') as Haligned'.
  { destruct Haligned as [Hne Hall]. split.
    - intros ->. by apply Permutation_nil_r in Hperm.
    - by rewrite <- Hperm. }
  destruct (normalize_fields N elements Haligned)
    as (first & forecasts & _ & _ & Hnorm & Hlen & Hfields).
  destruct (normalize_fields N elements' Haligned')
    as (first' & forecasts' & _ & _ & Hnorm' & Hlen' & Hfields').
  exists forecasts, forecasts'. repeat (split; [done|]).
  intros i f f' fld Hf Hf'.
  destruct (Hfields i f Hf) as (_ & _ & _ & _ & ->).
  destruct (Hfields' i f' Hf') as (_ & _ & _ & _ & ->).
  unfold fieldValue. by rewrite (lastTagged_Permutation _ _ _ Hnodup Hperm).
Qed.

Lemma distinct_tags_commute_witness :
  exists forecasts forecasts',
    normalize sixElements = Normal forecasts /\
    normalize (reverse sixElements) = Normal forecasts' /\
    length forecasts = 3 /\ length forecasts' = 3 /\
    forall i f f' fld,
      forecasts !! i = Some f -> forecasts' !! i = Some f' ->
      getField fld f = getField fld f'.
Proof.
  apply (distinct_tags_commute 3 sixElements (reverse sixElements)).
  - split; [discriminate|]. repeat constructor.
  - apply (bool_decide_unpack _). vm_compute. reflexivity.
  - symmetry. apply reverse_Permutation.
Defined.

(** X9: interval times are read from the first element only and never
    compared across elements: replacing the other elements by ones with the
    same names and values but arbitrary interval times leaves the result of
    a successful normalisation unchanged. *)
Theorem times_of_later_elements_are_ignored first rest rest' :
  Forall (fun e => length (Cwa.time first) <= length (Cwa.time e)) rest ->
  Forall2 sameValues rest rest' ->
  exists forecasts,
    normalize (first :: rest) = Normal forecasts /\
    normalize (first :: rest') = Normal forecasts.
Proof.
  intros Hall Hrel.
  assert (Forall2 sameValues (first :: rest) (first :: rest')) as Hrel'.
  { constructor; [|done]. split; [done|].
    apply Forall_Forall2_diag, Forall_forall. done. }
  eexists. split.
  { apply normalize_covers; [done|]. constructor; [done|exact Hall]. }
  rewrite (normalize_covers (first :: rest') first); [|done|].
  - f_equal. apply imap_ext. intros i t Ht.
    assert (forall fld, fieldValue fld i (first :: rest') "" =
                        fieldValue fld i (first :: rest) "") as Hfld.
    { intros fld. unfold fieldValue.
      pose proof (lastTagged_Forall2 sameValues (tagOf fld) _ _
                    (fun e e' H => proj1 H) Hrel') as Hlast.
      destruct Hlast as [e e' [_ Htimes]|]; [|done].
      f_equal. unfold valueAt.
      destruct (Cwa.time e !! i) as [te|] eqn:Hte.
      - by destruct (Forall2_lookup_l _ _ _ _ _ Htimes Hte) as (te' & -> & <-).
      - apply lookup_ge_None in Hte. rewrite (Forall2_length _ _ _ Htimes) in Hte.
        by apply lookup_ge_None in Hte as ->. }
    unfold expectedForecast. by rewrite !Hfld.
  - constructor; [done|].
    clear Hrel'. induction Hrel as [|e e' ? ? [_ Htimes] _ IH]; [constructor|].
    apply Forall_cons in Hall as [He Hall]. constructor; [|by apply IH].
    by rewrite <- (Forall2_length _ _ _ Htimes).
Qed.

Lemma times_of_later_elements_are_ignored_witness :
  exists forecasts,
    normalize [series "Wx" ["晴"; "陰"]; series "PoP" ["10"; "30"]] = Normal forecasts /\
    normalize [series "Wx" ["晴"; "陰"]; offsetPoP] = Normal forecasts.
Proof.
  apply (times_of_later_elements_are_ignored (series "Wx" ["晴"; "陰"])
           [series "PoP" ["10"; "30"]] [offsetPoP]).
  - repeat constructor.
  - constructor; [|constructor]. split; [reflexivity|].
    cbn. repeat constructor.
Defined.

(** X10: in every forecast of a successful normalisation, aligned or not, a
    field whose tag no element carries is the empty string, and a field
    whose tag some element carries is a value followed by the field's
    suffix ([%] for [rain], [°C] for the temperatures, nothing for the
    others). *)
Theorem field_is_set_iff_tag_occurs elements forecasts f fld :
  normalize elements = Normal forecasts ->
  f ∈ forecasts ->
  ((tagOf fld ∈ Cwa.elementName <$> elements) /\
   exists v, getField fld f = v +:+ suffixOf fld) \/
  ((tagOf fld ∉ Cwa.elementName <$> elements) /\ getField fld f = "").
Proof.
  intros Hnorm Hin.
  destruct (normalize_cases elements)
    as [(first & _ & Hnorm')|(_ & msg & Hthrow)]; [|congruence].
  rewrite Hnorm' in Hnorm. injection Hnorm as <-.
  apply list_elem_of_lookup in Hin as [i Hi]. rewrite list_lookup_imap in Hi.
  destruct (Cwa.time first !! i) as [t|]; [|done]. injection Hi as <-.
  assert (getField fld (expectedForecast elements i t) = fieldValue fld i elements "")
    as -> by by destruct fld.
  unfold fieldValue.
  destruct (lastTagged (tagOf fld) elements) as [e|] eqn:Hlast.
  - left. apply lastTagged_Some in Hlast as [He Hname]. split; [|by eauto].
    rewrite <- Hname. by apply list_elem_of_fmap_2.
  - right. split; [by apply lastTagged_None|done].
Qed.

Lemma field_is_set_iff_tag_occurs_witness :
  (("PoP" ∈ Cwa.elementName <$> longerSecond) /\
   exists v, "10%" = v +:+ "%") \/
  (("PoP" ∉ Cwa.elementName <$> longerSecond) /\ "10%" = "").
Proof.
  apply (field_is_set_iff_tag_occurs longerSecond
           [{| startTime := "06:00"; endTime := "18:00"; weather := "晴";
               rain := "10%"; minTemp := ""; maxTemp := ""; comfort := "";
               windSpeed := "" |}]
           {| startTime := "06:00"; endTime := "18:00"; weather := "晴";
              rain := "10%"; minTemp := ""; maxTemp := ""; comfort := "";
              windSpeed := "" |} FRain).
  - reflexivity.
  - apply list_elem_of_lookup. exists 0. reflexivity.
Defined.

(** * The other routes *)

Lemma append_assoc (a b c : string) : (a +:+ b) +:+ c = a +:+ (b +:+ c).
Proof.
  induction a as [|x a IH]; [reflexivity|].
  change (String x ((a +:+ b) +:+ c) = String x (a +:+ (b +:+ c))). by rewrite IH.
Qed.

(** X11: the home document lists exactly the keys of [CITY_MAP], in source
    order; every link ends in [/api/weather/] followed by its key, and every
    listed key resolves in [getCityWeather]. *)
Theorem home_lists_every_configured_code r req :
  exists listing,
    member (listingKey r) (body (home r req)) = Some (JObj listing) /\
    listing.*1 = (CITY_MAP_entries r).*1 /\
    Forall (fun kv =>
              (exists base, kv.2 = JStr (base +:+ "/api/weather/" +:+ kv.1)) /\
              truthy (get_property (CITY_MAP r) kv.1) = true)
           listing.
Proof.
  destruct r.
  - eexists. split; [reflexivity|]. split; [reflexivity|].
    apply Forall_fmap, Forall_forall. intros [k name] Hin. simpl. split.
    + exists (protocol req +:+ "://" +:+ ToString (host req)).
      by rewrite !append_assoc.
    + apply CITY_MAP_lookup in Hin. by apply configured_resolves in Hin as [_ ?].
  - eexists. split; [reflexivity|]. split; [reflexivity|].
    repeat (constructor; [split; [by exists ""|reflexivity]|]). constructor.
Qed.

Lemma messageOrDefault_truthy message : truthyJSON (messageOrDefault message) = true.
Proof.
  unfold messageOrDefault. destruct message as [m|]; [|done].
  by destruct (truthyJSON m) eqn:Hm.
Qed.

(** X12: every failure response that is sent carries a truthy [message]
    (a non-empty string, or whatever truthy value the provider's error body
    held), with two exceptions: the 404 handler of the six-municipalities
    revision sends an [error] label only, and the error-handling middleware
    sends the message of the error it was given, which may be empty. *)
Theorem failures_carry_a_message r CWA_API_KEY req upstream resp calls :
  run (app r CWA_API_KEY req) upstream = (Normal resp, calls) ->
  is_Some (errorLabel resp) ->
  (exists m, messageOf resp = Some m /\ truthyJSON m = true)
  \/ (r = SixMunicipalities /\ route req = Unmatched /\ messageOf resp = None)
  \/ (route req = MiddlewareError "" /\ messageOf resp = Some (JStr "")).
Proof.
  unfold app. destruct (route req) as [| |city| |message] eqn:Hroute.
  - intros [= <- <-] [? Hlabel]. by destruct r.
  - intros [= <- <-] [? Hlabel]. done.
  - destruct (getCityWeather_paths r CWA_API_KEY city upstream)
      as (outcome & calls' & Hrun & Hpath).
    intros Hrun'. assert (outcome = Normal resp) as -> by congruence.
    intros [label Hlabel]. left.
    inversion Hpath; subst.
    + eexists. split; [reflexivity|]. by destruct r.
    + eexists. split; [reflexivity|]. done.
    + eexists. split; [reflexivity|]. done.
    + eexists. split; [reflexivity|]. apply messageOrDefault_truthy.
    + eexists. split; [reflexivity|]. by destruct r.
    + eexists. split; [reflexivity|]. done.
    + discriminate Hlabel.
  - intros [= <- <-] _. destruct r.
    + left. eexists. split; [reflexivity|]. done.
    + right; left. done.
  - intros [= <- <-] _.
    destruct (String.eqb_spec message "") as [->|Hne].
    + do 2 right. done.
    + left. eexists. split; [reflexivity|]. simpl.
      by apply String.eqb_neq in Hne as ->.
Qed.

Lemma failures_carry_a_message_witness :
  (exists m,
     messageOf (res_status_json 400
                  (JObj [("success", JBool false); ("error", JStr "參數錯誤");
                         ("message", JStr (unsupportedMessage SixMunicipalities "atlantis"))]))
       = Some m /\ truthyJSON m = true)
  \/ (SixMunicipalities = SixMunicipalities /\
      route (weatherRequest "atlantis") = Unmatched /\
      messageOf (res_status_json 400
                   (JObj [("success", JBool false); ("error", JStr "參數錯誤");
                          ("message", JStr (unsupportedMessage SixMunicipalities "atlantis"))]))
        = None)
  \/ (route (weatherRequest "atlantis") = MiddlewareError "" /\
      messageOf (res_status_json 400
                   (JObj [("success", JBool false); ("error", JStr "參數錯誤");
                          ("message", JStr (unsupportedMessage SixMunicipalities "atlantis"))]))
        = Some (JStr "")).
Proof.
  apply (failures_carry_a_message SixMunicipalities (JSString "CWA-KEY")
           (weatherRequest "atlantis") emptyHanded _ []).
  - reflexivity.
  - eexists. reflexivity.
Defined.

(** The exceptions of X12: in the six-municipalities revision an unmatched
    route is answered without a [message] member, and the error-handling
    middleware passes an empty error message on. *)
Example failure_responses_without_a_text :
  messageOf (notFound SixMunicipalities) = None /\
  messageOf (notFound AllCounties) = Some (JStr "請確認網址是否正確") /\
  messageOf (errorMiddleware "") = Some (JStr "").
Proof. repeat split. Qed.
